(** * Python-FTP-File-Ingestion: the ingestion job and its configuration

    A shallow embedding of [python_glue_injestion_job.py] and [config.py].
    The class [FTPIngestion] becomes a record of its fields; its methods
    become functions in a state-and-exception monad over that record and a
    chronological trace of everything the job does to the outside world
    (paramiko calls, the boto3 upload, the clock, standard output).  The
    outside world is a record of oracles, [World], that fixes what each
    external call answers. *)

From Stdlib Require Import String Ascii List NArith Bool Arith DecimalString
  DecimalPos DecimalN.
Import ListNotations.

Local Open Scope list_scope.
Local Open Scope string_scope.

(** ** Python values the job manipulates *)

(** Exceptions, all of them instances of Python's [Exception], the class
    every handler of the job catches.  [paramiko.AuthenticationException]
    is listed before [SSHException] because the handlers of
    [create_ssh_connection] test them in that order. *)
Inductive exn : Type :=
| AuthenticationException
| SSHException
| SFTPError
| IOError
| AttributeError
| IndexError
| OtherException (what : string).

(** A client attribute ([self.ssh_client], [self.sftp_client]): [None] as
    config.py initialises it, or a paramiko object that is live or not. *)
Inductive client : Type :=
| PyNone
| Obj (live : bool).

(** The fields of [datetime.now()]. *)
Record datetime : Type := mkDatetime {
  year : N;
  month : N;
  day : N;
  hour : N;
  minute : N
}.

(** [boto3.s3.transfer.TransferConfig], with the four arguments the job passes. *)
Record TransferConfig : Type := mkTransferConfig {
  multipart_threshold : N;
  multipart_chunksize : N;
  max_concurrency : N;
  use_threads : bool
}.

(** ** config.py *)

Module cfg.

Definition SSH_CLIENT : client := PyNone.
Definition SFTP_CLIENT : client := PyNone.
Definition SSH_OK : bool := false.
Definition SFTP_OK : bool := false.

Definition MB : N := 1024 ^ 2.
Definition GB : N := 1024 ^ 3.

Definition MULTIPART_THRESHOLD : N := 100 * MB.
Definition MULTIPART_CHUNKSIZE : N := 20 * MB.
Definition MAX_CUNCURRENCY : N := 10.
Definition USER_THREADS : bool := true.

End cfg.

(** The deployment strings of config.py (placeholders in the repository). *)
Record Settings : Type := mkSettings {
  FTP_HOST : string;
  FTP_PORT : string;
  FTP_USERNAME : string;
  FTP_PASSWORD : string;
  S3_BUCKET : string;
  PARENT_DIR_PATH : string;
  PROCESSED_DIR_PATH : string
}.

(** ** The object and the trace *)

(** [self], as [FTPIngestion.__init__] lays it out. *)
Record FTPIngestion : Type := mkFTPIngestion {
  ssh_client : client;
  sftp_client : client;
  ssh_ok : bool;
  sftp_ok : bool;
  ftp_host : string;
  ftp_port : string;
  ftp_username : string;
  ftp_password : string;
  s3_bucket_name : string;
  ftp_directory_path : string;
  ftp_processed_path : string
}.

(** What the job does to the outside world, one event per external call;
    the [option exn] is [None] when the call returned and [Some e] when it
    raised [e]. *)
Inductive event : Type :=
| EvPrint (msg : string)
| EvPrintErr (msg : string) (error : exn)
| EvConnect (hostname username password port : string) (r : option exn)
| EvOpenSftp (r : option exn)
| EvChdir (path : string) (r : option exn)
| EvListdir (r : exn + list string)
| EvNow (current_date : datetime)
| EvFile (ftp_file : string) (r : option exn)
| EvUploadFileobj (source_file bucket key : string) (config : TransferConfig)
    (r : option exn)
| EvExecCommand (command : string) (r : option exn)
| EvSftpClose
| EvSshClose.

Record State : Type := mkState {
  self : FTPIngestion;
  trace : list event
}.

(** The number of events so far; the oracles are indexed by it, so the
    world may answer the same call differently at different moments. *)
Definition tick (st : State) : nat := length (trace st).

(** The answers of the remote host, of the storage backend and of the clock. *)
Record World : Type := mkWorld {
  connect_result : option exn;
  open_sftp_result : option exn;
  chdir_result : string -> option exn;
  listdir_result : exn + list string;
  file_result : nat -> string -> option exn;
  upload_fileobj_result :
    nat -> string -> string -> string -> TransferConfig -> option exn;
  exec_command_result : nat -> string -> option exn;
  now : nat -> datetime
}.

(** ** The monad: state that survives a raised exception *)

Inductive result (A : Type) : Type :=
| Val (a : A)
| Raise (e : exn).

Arguments Val {A} a.
Arguments Raise {A} e.

Definition M (A : Type) : Type := State -> result A * State.

Definition ret {A : Type} (a : A) : M A := fun st => (Val a, st).

Definition raise {A : Type} (e : exn) : M A := fun st => (Raise e, st).

Definition bind {A B : Type} (m : M A) (k : A -> M B) : M B :=
  fun st =>
    match m st with
    | (Val a, st') => k a st'
    | (Raise e, st') => (Raise e, st')
    end.

(** [try: body except Exception as error: handler error]. *)
Definition try_except {A : Type} (body : M A) (handler : exn -> M A) : M A :=
  fun st =>
    match body st with
    | (Val a, st') => (Val a, st')
    | (Raise e, st') => handler e st'
    end.

Declare Scope py_scope.
Delimit Scope py_scope with py.

Notation "x <- m ;; k" := (bind m (fun x => k))
  (at level 100, m at next level, right associativity) : py_scope.
Notation "m ;; k" := (bind m (fun _ => k))
  (at level 100, right associativity) : py_scope.

(** Python's [+] on strings; like Python's it associates to the left. *)
Declare Scope pystr_scope.
Delimit Scope pystr_scope with pystr.
Notation "a + b" := (String.append a b) : pystr_scope.

Local Open Scope py_scope.

Definition get_self : M FTPIngestion := fun st => (Val (self st), st).

Definition emit (e : event) : M unit :=
  fun st => (Val tt, mkState (self st) (trace st ++ [e])).

Definition get_tick : M nat := fun st => (Val (tick st), st).

Definition print (msg : string) : M unit := emit (EvPrint msg).

Definition print_error (msg : string) (error : exn) : M unit :=
  emit (EvPrintErr msg error).

(** Field assignments. *)
Definition set_ssh_client (c : client) : M unit :=
  fun st =>
    let o := self st in
    (Val tt,
     mkState (mkFTPIngestion c (sftp_client o) (ssh_ok o) (sftp_ok o)
                (ftp_host o) (ftp_port o) (ftp_username o) (ftp_password o)
                (s3_bucket_name o) (ftp_directory_path o) (ftp_processed_path o))
             (trace st)).

Definition set_sftp_client (c : client) : M unit :=
  fun st =>
    let o := self st in
    (Val tt,
     mkState (mkFTPIngestion (ssh_client o) c (ssh_ok o) (sftp_ok o)
                (ftp_host o) (ftp_port o) (ftp_username o) (ftp_password o)
                (s3_bucket_name o) (ftp_directory_path o) (ftp_processed_path o))
             (trace st)).

Definition set_ssh_ok (b : bool) : M unit :=
  fun st =>
    let o := self st in
    (Val tt,
     mkState (mkFTPIngestion (ssh_client o) (sftp_client o) b (sftp_ok o)
                (ftp_host o) (ftp_port o) (ftp_username o) (ftp_password o)
                (s3_bucket_name o) (ftp_directory_path o) (ftp_processed_path o))
             (trace st)).

Definition set_sftp_ok (b : bool) : M unit :=
  fun st =>
    let o := self st in
    (Val tt,
     mkState (mkFTPIngestion (ssh_client o) (sftp_client o) (ssh_ok o) b
                (ftp_host o) (ftp_port o) (ftp_username o) (ftp_password o)
                (s3_bucket_name o) (ftp_directory_path o) (ftp_processed_path o))
             (trace st)).

(** Looking up a method on a client attribute: on [None] Python raises
    [AttributeError] before anything is called. *)
Definition method {A : Type} (c : client) (call : M A) : M A :=
  match c with
  | PyNone => raise AttributeError
  | Obj _ => call
  end.

(** An external call whose answer is [r]: it is recorded, then it returns or raises. *)
Definition external (ev : option exn -> event) (r : option exn) : M unit :=
  emit (ev r) ;;
  match r with
  | None => ret tt
  | Some e => raise e
  end.

(** ** Python's [str.split], [list[-1]] and [str(int)] *)

(** [s.split(sep)] for a one-character separator: never the empty list. *)
Fixpoint split (sep : ascii) (s : string) : list string :=
  match s with
  | EmptyString => [EmptyString]
  | String c s' =>
      if Ascii.eqb c sep then EmptyString :: split sep s'
      else
        match split sep s' with
        | [] => [String c EmptyString]
        | piece :: pieces => String c piece :: pieces
        end
  end.

(** [l[-1]]: [None] stands for the [IndexError] of an empty list. *)
Fixpoint index_last {A : Type} (l : list A) : option A :=
  match l with
  | [] => None
  | [a] => Some a
  | _ :: l' => index_last l'
  end.

(** [str(n)] for a non-negative [int]: decimal digits, no padding. *)
Definition str (n : N) : string := NilZero.string_of_uint (N.to_uint n).

(** ** The methods of [FTPIngestion] *)

(** [__init__]: the object as built from config.py. *)
Definition init (s : Settings) : FTPIngestion :=
  mkFTPIngestion cfg.SSH_CLIENT cfg.SFTP_CLIENT cfg.SSH_OK cfg.SFTP_OK
    (FTP_HOST s) (FTP_PORT s) (FTP_USERNAME s) (FTP_PASSWORD s)
    (S3_BUCKET s) (PARENT_DIR_PATH s) (PROCESSED_DIR_PATH s).

Definition initial (s : Settings) : State := mkState (init s) [].

(** Lines 132 and 134-141 of [create_s3_partition]: the string built from
    the directory path and the date read from the clock. *)
Definition s3_partition_of (directory_path : string) (current_date : datetime)
  : option string :=
  match index_last (split "/" directory_path) with
  | None => None
  | Some parent_dir =>
      let current_year := str (year current_date) in
      let current_month := str (month current_date) in
      let current_day := str (day current_date) in
      let current_hour := str (hour current_date) in
      let s3_partition :=
        (parent_dir + "/year = " + current_year + "/month = " +
         current_month + "/day = " + current_day + "/hour = " + current_hour +
         "/")%pystr in
      Some s3_partition
  end.

Section Methods.

Variable w : World.

Definition create_ssh_connection : M bool :=
  print "Establishing connection with host..." ;;
  try_except
    (set_ssh_client (Obj false) ;;
     o <- get_self ;;
     external (EvConnect (ftp_host o) (ftp_username o) (ftp_password o)
                 (ftp_port o))
              (connect_result w) ;;
     set_ssh_client (Obj true) ;;
     print "connected" ;;
     set_ssh_ok true)
    (fun error =>
       match error with
       | AuthenticationException =>
           set_ssh_ok false ;;
           print_error "Authentication Failed, error: " error
       | SSHException =>
           set_ssh_ok false ;;
           print_error "Could not establish ssh connection, error: " error
       | _ =>
           set_ssh_ok false ;;
           print_error "Error establishing connection, error: " error
       end) ;;
  o <- get_self ;;
  ret (ssh_ok o).

Definition create_sftp_connection : M bool :=
  try_except
    (connected <- create_ssh_connection ;;
     if connected then
       print "Establishing SFTP connection..." ;;
       o <- get_self ;;
       method (ssh_client o) (external EvOpenSftp (open_sftp_result w)) ;;
       set_sftp_client (Obj true) ;;
       print "SFTP connection successfull" ;;
       set_sftp_ok true
     else
       print "Could not establish ssh connection")
    (fun error =>
       match error with
       | SFTPError =>
           set_sftp_ok false ;;
           print_error "could not establish sftp connection, error: " error
       | _ =>
           set_sftp_ok false ;;
           print_error "could not establish sftp connection, error: " error
       end) ;;
  o <- get_self ;;
  ret (sftp_ok o).

Definition move_files_to_processed (source_file_name : string) : M unit :=
  print ("moving " + source_file_name + " to processed directory.")%pystr ;;
  o <- get_self ;;
  let processed_directory := ftp_processed_path o in
  let src := (ftp_directory_path o + "/" + source_file_name)%pystr in
  let dest := (processed_directory + source_file_name)%pystr in
  try_except
    (t <- get_tick ;;
     let command := ("mv " + src + " " + dest)%pystr in
     method (ssh_client o)
       (external (EvExecCommand command) (exec_command_result w t command)))
    (fun error =>
       print_error "error moving files to processed directory, error: " error).

Definition create_s3_partition : M string :=
  o <- get_self ;;
  t <- get_tick ;;
  let current_date := now w t in
  emit (EvNow current_date) ;;
  match s3_partition_of (ftp_directory_path o) current_date with
  | Some s3_partition => ret s3_partition
  | None => raise IndexError
  end.

Definition s3_upload_file_multipart (source_file s3_target_file : string)
  : M bool :=
  try_except
    (let config :=
       mkTransferConfig cfg.MULTIPART_THRESHOLD cfg.MULTIPART_CHUNKSIZE
         cfg.MAX_CUNCURRENCY cfg.USER_THREADS in
     o <- get_self ;;
     t <- get_tick ;;
     external (EvUploadFileobj source_file (s3_bucket_name o) s3_target_file
                 config)
              (upload_fileobj_result w t source_file (s3_bucket_name o)
                 s3_target_file config) ;;
     ret true)
    (fun error =>
       print_error "could not upload file using multipart upload, error: "
         error ;;
       ret false).

(** [close()] on a paramiko client object returns without raising, also on
    a client that is not connected; on [None] the attribute lookup fails. *)
Definition close_connections : M unit :=
  print "closing connections" ;;
  o <- get_self ;;
  method (sftp_client o) (emit EvSftpClose ;; set_sftp_client (Obj false)) ;;
  o <- get_self ;;
  method (ssh_client o) (emit EvSshClose ;; set_ssh_client (Obj false)).

(** The [for ftp_file in files_to_upload] loop of [initiate_ingestion],
    with the local list [files_to_move] as accumulator. *)
Fixpoint upload_loop (s3_partition : string) (files_to_upload : list string)
    (files_to_move : list string) : M (list string) :=
  match files_to_upload with
  | [] => ret files_to_move
  | ftp_file :: rest =>
      o <- get_self ;;
      t <- get_tick ;;
      method (sftp_client o) (external (EvFile ftp_file) (file_result w t ftp_file)) ;;
      let sftp_file_obj := ftp_file in
      uploaded <- s3_upload_file_multipart sftp_file_obj
                    (s3_partition + ftp_file)%pystr ;;
      if uploaded then
        print "file uploaded to s3" ;;
        upload_loop s3_partition rest (files_to_move ++ [ftp_file])%list
      else
        upload_loop s3_partition rest files_to_move
  end.

(** The [for uploaded_file in files_to_move] loop. *)
Fixpoint move_loop (files_to_move : list string) : M unit :=
  match files_to_move with
  | [] => ret tt
  | uploaded_file :: rest =>
      move_files_to_processed uploaded_file ;;
      move_loop rest
  end.

Definition sftp_chdir : M unit :=
  o <- get_self ;;
  method (sftp_client o)
    (external (EvChdir (ftp_directory_path o))
       (chdir_result w (ftp_directory_path o))).

Definition sftp_listdir : M (list string) :=
  o <- get_self ;;
  method (sftp_client o)
    (emit (EvListdir (listdir_result w)) ;;
     match listdir_result w with
     | inr names => ret names
     | inl e => raise e
     end).

Definition initiate_ingestion : M unit :=
  try_except
    (opened <- create_sftp_connection ;;
     if opened then
       sftp_chdir ;;
       files_to_upload <- sftp_listdir ;;
       s3_partition <- create_s3_partition ;;
       files_to_move <- upload_loop s3_partition files_to_upload [] ;;
       match files_to_move with
       | _ :: _ => move_loop files_to_move
       | [] => print "nothing to upload"
       end
     else
       print "Could not establish SFTP connection")
    (fun error => print_error "file ingestion failed, error: " error) ;;
  close_connections.

End Methods.

(** [ftp_obj = FTPIngestion(); ftp_obj.initiate_ingestion()]. *)
Definition main (w : World) (s : Settings) : result unit * State :=
  initiate_ingestion w (initial s).

(** ** Reading a trace *)

Definition is_none {A : Type} (r : option A) : bool :=
  match r with
  | None => true
  | Some _ => false
  end.

(** One call of [upload_fileobj]: the file, the key it was sent to, and
    whether the call returned. *)
Record attempt : Type := mkAttempt {
  att_file : string;
  att_key : string;
  att_ok : bool
}.

Definition uploads (tr : list event) : list attempt :=
  flat_map (fun e => match e with
                     | EvUploadFileobj f _ k _ r => [mkAttempt f k (is_none r)]
                     | _ => []
                     end) tr.

(** The files whose [upload_fileobj] returned. *)
Definition succeeded (tr : list event) : list string :=
  flat_map (fun e => match e with
                     | EvUploadFileobj f _ _ _ None => [f]
                     | _ => []
                     end) tr.

(** The files whose remote read stream the job tried to open. *)
Definition opened (tr : list event) : list string :=
  flat_map (fun e => match e with
                     | EvFile f _ => [f]
                     | _ => []
                     end) tr.

(** The shell commands handed to [exec_command]. *)
Definition commands (tr : list event) : list string :=
  flat_map (fun e => match e with
                     | EvExecCommand c _ => [c]
                     | _ => []
                     end) tr.

Definition clock_reads (tr : list event) : list datetime :=
  flat_map (fun e => match e with
                     | EvNow d => [d]
                     | _ => []
                     end) tr.

(** [close_connections] announces itself on entry. *)
Definition is_close_call (e : event) : bool :=
  match e with
  | EvPrint msg => String.eqb msg "closing connections"
  | _ => false
  end.

Definition close_calls (tr : list event) : nat :=
  length (filter is_close_call tr).

(** Events that reach the files: the remote directory, a remote file, the
    bucket, or a remote move. *)
Definition touches_files (e : event) : bool :=
  match e with
  | EvChdir _ _ | EvListdir _ | EvFile _ _
  | EvUploadFileobj _ _ _ _ _ | EvExecCommand _ _ => true
  | _ => false
  end.

Definition touched (tr : list event) : list event := filter touches_files tr.

(** [sep.join(pieces)], the inverse of [split]. *)
Fixpoint join (sep : ascii) (pieces : list string) : string :=
  match pieces with
  | [] => EmptyString
  | [piece] => piece
  | piece :: rest => piece ++ String sep (join sep rest)
  end.

Fixpoint contains (c : ascii) (s : string) : bool :=
  match s with
  | EmptyString => false
  | String c' s' => Ascii.eqb c' c || contains c s'
  end.

(** [seg] is what follows the last [sep] of [path], or all of [path]
    when it has none. *)
Definition last_segment (sep : ascii) (path seg : string) : Prop :=
  contains sep seg = false /\
  (path = seg \/ exists before, path = before ++ String sep seg).

(** The move command as the job is meant to issue it for one file. *)
Definition mv_command (o : FTPIngestion) (file_name : string) : string :=
  "mv " ++ ftp_directory_path o ++ "/" ++ file_name ++ " " ++
  ftp_processed_path o ++ file_name.

(** The session opens and the pending directory lists as [files]. *)
Definition lists (w : World) (s : Settings) (files : list string) : Prop :=
  connect_result w = None /\
  open_sftp_result w = None /\
  chdir_result w (PARENT_DIR_PATH s) = None /\
  listdir_result w = inr files.

(** ** Sample deployments and worlds *)

Definition sample_settings : Settings :=
  mkSettings "ftp.example.org" "22" "ingest" "secret" "landing-bucket"
    "/data/exports" "/data/processed/".

(** A clock that moves on by one hour at every event. *)
Definition hourly_clock (t : nat) : datetime :=
  mkDatetime 2024 5 3 (N.of_nat t mod 24) 0.

Definition world_all_ok : World :=
  mkWorld None None (fun _ => None) (inr ["a.csv"; "b.bin"])
    (fun _ _ => None) (fun _ _ _ _ _ => None) (fun _ _ => None) hourly_clock.

(** Wrong credentials: [connect] raises. *)
Definition world_bad_credentials : World :=
  mkWorld (Some AuthenticationException) None (fun _ => None)
    (inr ["a.csv"; "b.bin"])
    (fun _ _ => None) (fun _ _ _ _ _ => None) (fun _ _ => None) hourly_clock.

(** SSH connects, the SFTP channel does not open. *)
Definition world_no_sftp : World :=
  mkWorld None (Some SFTPError) (fun _ => None) (inr ["a.csv"; "b.bin"])
    (fun _ _ => None) (fun _ _ _ _ _ => None) (fun _ _ => None) hourly_clock.

(** The listing holds an entry that cannot be opened for reading (a
    sub-directory), between two regular files. *)
Definition world_unreadable_entry : World :=
  mkWorld None None (fun _ => None) (inr ["a.csv"; "archive"; "b.bin"])
    (fun _ f => if String.eqb f "archive" then Some IOError else None)
    (fun _ _ _ _ _ => None) (fun _ _ => None) hourly_clock.

(** The upload of [b.bin] is rejected and the move of [a.csv] fails. *)
Definition world_mixed : World :=
  mkWorld None None (fun _ => None) (inr ["a.csv"; "b.bin"; "c.txt"])
    (fun _ _ => None)
    (fun _ f _ _ _ =>
       if String.eqb f "b.bin" then Some (OtherException "ClientError")
       else None)
    (fun _ c =>
       if String.eqb c "mv /data/exports/a.csv /data/processed/a.csv"
       then Some SSHException else None)
    hourly_clock.

(** A deployment whose processed directory path has no trailing separator. *)
Definition settings_no_separator : Settings :=
  mkSettings "ftp.example.org" "22" "ingest" "secret" "landing-bucket"
    "/data/exports" "/data/processed".

(** The state right after both connections came up in [world_all_ok]. *)
Definition sample_connected : State :=
  snd (create_sftp_connection world_all_ok (initial sample_settings)).

(** ** Names for the stages of a run *)

(** The object once both connections are up, and once both are closed. *)
Definition connected (s : Settings) : FTPIngestion :=
  mkFTPIngestion (Obj true) (Obj true) true true (FTP_HOST s) (FTP_PORT s)
    (FTP_USERNAME s) (FTP_PASSWORD s) (S3_BUCKET s) (PARENT_DIR_PATH s)
    (PROCESSED_DIR_PATH s).

Definition closed (s : Settings) : FTPIngestion :=
  mkFTPIngestion (Obj false) (Obj false) true true (FTP_HOST s) (FTP_PORT s)
    (FTP_USERNAME s) (FTP_PASSWORD s) (S3_BUCKET s) (PARENT_DIR_PATH s)
    (PROCESSED_DIR_PATH s).

(** What a run does while both connections come up. *)
Definition connecting (s : Settings) : list event :=
  [EvPrint "Establishing connection with host...";
   EvConnect (FTP_HOST s) (FTP_USERNAME s) (FTP_PASSWORD s) (FTP_PORT s) None;
   EvPrint "connected";
   EvPrint "Establishing SFTP connection...";
   EvOpenSftp None;
   EvPrint "SFTP connection successfull"].

(** The same, up to a successful [chdir]. *)
Definition entering (s : Settings) : list event :=
  connecting s ++ [EvChdir (PARENT_DIR_PATH s) None].

(** What [close_connections] does on two client objects. *)
Definition closing : list event :=
  [EvPrint "closing connections"; EvSftpClose; EvSshClose].

(** The [TransferConfig] built from config.py. *)
Definition configured : TransferConfig :=
  mkTransferConfig cfg.MULTIPART_THRESHOLD cfg.MULTIPART_CHUNKSIZE
    cfg.MAX_CUNCURRENCY cfg.USER_THREADS.

(** An upload event is a call for [bucket] with the configured transfer
    parameters, answered by the world. *)
Definition upload_call_of (w : World) (bucket : string) (e : event) : Prop :=
  match e with
  | EvUploadFileobj f b k c r =>
      b = bucket /\ c = configured /\
      exists t, upload_fileobj_result w t f b k c = r
  | _ => True
  end.

(** What follows the upload loop, by its result [r] from state [st]: the
    move loop on a non-empty list, one line on an empty one, and the report
    of the outer handler when the loop was left by an exception. *)
Definition after_loop (w : World) (st : State) (r : result (list string))
    (middle : list event) : Prop :=
  match r with
  | Val [] => middle = [EvPrint "nothing to upload"]
  | Val files_to_move =>
      move_loop w files_to_move st =
        (Val tt, mkState (self st) (trace st ++ middle))
  | Raise e => middle = [EvPrintErr "file ingestion failed, error: " e]
  end.

(** What [move_files_to_processed] does for one file on a client object,
    given the answer [r] of [exec_command]: it announces the move, issues
    the command, and prints the error if the call raised. *)
Definition move_report (o : FTPIngestion) (fr : string * option exn)
  : list event :=
  EvPrint ("moving " ++ fst fr ++ " to processed directory.") ::
  EvExecCommand (mv_command o (fst fr)) (snd fr) ::
  match snd fr with
  | None => []
  | Some error =>
      [EvPrintErr "error moving files to processed directory, error: " error]
  end.

(** The line [create_ssh_connection] prints after [connect]. *)
Definition connect_report (r : option exn) : event :=
  match r with
  | None => EvPrint "connected"
  | Some AuthenticationException =>
      EvPrintErr "Authentication Failed, error: " AuthenticationException
  | Some SSHException =>
      EvPrintErr "Could not establish ssh connection, error: " SSHException
  | Some e => EvPrintErr "Error establishing connection, error: " e
  end.

(** ** More sample worlds *)

(** The pending directory does not exist: [chdir] raises. *)
Definition world_no_directory : World :=
  mkWorld None None (fun _ => Some IOError) (inr ["a.csv"])
    (fun _ _ => None) (fun _ _ _ _ _ => None) (fun _ _ => None) hourly_clock.

(** The pending directory is empty. *)
Definition world_empty : World :=
  mkWorld None None (fun _ => None) (inr [])
    (fun _ _ => None) (fun _ _ _ _ _ => None) (fun _ _ => None) hourly_clock.

(** The bucket rejects every upload. *)
Definition world_all_rejected : World :=
  mkWorld None None (fun _ => None) (inr ["a.csv"; "b.bin"])
    (fun _ _ => None)
    (fun _ _ _ _ _ => Some (OtherException "ClientError"))
    (fun _ _ => None) hourly_clock.

(** * Properties *)

(** ** Strings *)

Lemma append_assoc (a b c : string) : (a ++ b) ++ c = a ++ (b ++ c).
Proof.
  induction a as [|ch a IH]; simpl.
  - reflexivity.
  - now rewrite IH.
Qed.

Lemma split_not_nil (sep : ascii) (s : string) : split sep s <> [].
Proof.
  destruct s as [|c s]; simpl.
  - discriminate.
  - destruct (Ascii.eqb c sep); [discriminate|].
    destruct (split sep s); discriminate.
Qed.

(** Joining the pieces gives the string back. *)
Lemma join_split (sep : ascii) (s : string) : join sep (split sep s) = s.
Proof.
  induction s as [|c s IH]; simpl.
  - reflexivity.
  - destruct (Ascii.eqb_spec c sep) as [->|Hne].
    + pose proof (split_not_nil sep s) as Hnil.
      simpl. destruct (split sep s) as [|p ps]; [contradiction|].
      now rewrite IH.
    + pose proof (split_not_nil sep s) as Hnil.
      destruct (split sep s) as [|p ps]; [contradiction|].
      destruct ps as [|q qs]; simpl in *; now rewrite <- IH.
Qed.

(** No piece holds the separator. *)
Lemma split_pieces_clean (sep : ascii) (s : string) :
  Forall (fun piece => contains sep piece = false) (split sep s).
Proof.
  induction s as [|c s IH]; simpl.
  - constructor; [reflexivity | constructor].
  - destruct (Ascii.eqb c sep) eqn:E.
    + constructor; [reflexivity | exact IH].
    + destruct (split sep s) as [|p ps].
      * constructor; [simpl; now rewrite E | constructor].
      * inversion IH as [|? ? Hp Hps]; subst.
        constructor; [simpl; now rewrite E | exact Hps].
Qed.

Lemma index_last_join (sep : ascii) (pieces : list string) (seg : string) :
  index_last pieces = Some seg ->
  join sep pieces = seg \/ exists before, join sep pieces = before ++ String sep seg.
Proof.
  induction pieces as [|p ps IH]; simpl; [discriminate|].
  destruct ps as [|q qs].
  - intros [= ->]. now left.
  - intros H. right. destruct (IH H) as [Heq | [before Heq]].
    + exists p. now rewrite Heq.
    + exists (p ++ String sep before). rewrite Heq.
      now rewrite append_assoc.
Qed.

Lemma index_last_In {A : Type} (l : list A) (a : A) :
  index_last l = Some a -> In a l.
Proof.
  induction l as [|x l IH]; simpl; [discriminate|].
  destruct l as [|y l'].
  - intros [= ->]. now left.
  - intros H. right. now apply IH.
Qed.

Lemma index_last_some {A : Type} (l : list A) :
  l <> [] -> exists a, index_last l = Some a.
Proof.
  induction l as [|x l IH]; [congruence|].
  intros _. destruct l as [|y l'].
  - now exists x.
  - destruct IH as [a Ha]; [discriminate|]. exists a. exact Ha.
Qed.

(** [path.split("/")[-1]] never raises and is the last segment of [path]. *)
Lemma split_last_segment (sep : ascii) (path : string) :
  exists seg, index_last (split sep path) = Some seg /\ last_segment sep path seg.
Proof.
  destruct (index_last_some (split sep path) (split_not_nil sep path)) as [seg Hseg].
  exists seg. split; [exact Hseg|]. split.
  - pose proof (split_pieces_clean sep path) as Hclean.
    rewrite Forall_forall in Hclean. apply Hclean.
    now apply index_last_In.
  - pose proof (index_last_join sep _ _ Hseg) as Hjoin.
    now rewrite join_split in Hjoin.
Qed.

(** A last segment is unique: the path determines it. *)
Lemma contains_app_sep (sep : ascii) (a b : string) :
  contains sep (a ++ String sep b) = true.
Proof.
  induction a as [|c a IH]; simpl.
  - now rewrite Ascii.eqb_refl.
  - rewrite IH. apply orb_true_r.
Qed.

Lemma last_segment_unique (sep : ascii) (path seg1 seg2 : string) :
  last_segment sep path seg1 -> last_segment sep path seg2 -> seg1 = seg2.
Proof.
  intros [Hc1 H1] [Hc2 H2].
  destruct H1 as [-> | [b1 ->]]; destruct H2 as [H2 | [b2 H2]].
  - exact H2.
  - rewrite H2, contains_app_sep in Hc1. discriminate.
  - rewrite <- H2, contains_app_sep in Hc2. discriminate.
  - revert b2 H2.
    induction b1 as [|c b1 IH]; intros [|c2 b2]; simpl; intros H2.
    + now injection H2.
    + injection H2 as <- ->. rewrite contains_app_sep in Hc1. discriminate.
    + injection H2 as -> <-. rewrite contains_app_sep in Hc2. discriminate.
    + injection H2 as _ H2. now apply (IH b2).
Qed.

(** ** The partition key *)

Lemma s3_partition_of_format (path : string) (d : datetime) :
  exists parent_dir,
    last_segment "/" path parent_dir /\
    s3_partition_of path d =
      Some (parent_dir ++ "/year = " ++ str (year d) ++ "/month = " ++
            str (month d) ++ "/day = " ++ str (day d) ++ "/hour = " ++
            str (hour d) ++ "/").
Proof.
  destruct (split_last_segment "/" path) as [seg [Hidx Hseg]].
  exists seg. split; [exact Hseg|].
  unfold s3_partition_of. rewrite Hidx. cbv zeta.
  now rewrite !append_assoc.
Qed.

(** [create_s3_partition] never raises: it reads the clock once, leaves the
    object alone and returns the string of [s3_partition_of]. *)
Lemma create_s3_partition_run (w : World) (st : State) :
  exists s3_partition,
    s3_partition_of (ftp_directory_path (self st)) (now w (tick st))
      = Some s3_partition /\
    create_s3_partition w st =
      (Val s3_partition,
       mkState (self st) (trace st ++ [EvNow (now w (tick st))])).
Proof.
  destruct (s3_partition_of_format (ftp_directory_path (self st))
              (now w (tick st))) as [seg [_ Hfmt]].
  eexists. split; [exact Hfmt|].
  unfold create_s3_partition, bind, get_self, get_tick, emit, ret.
  simpl. now rewrite Hfmt.
Qed.

(** C4: the partition key is the last segment of the directory path
    followed by [/year = Y/month = M/day = D/hour = H/], a function of that
    segment and of the date alone; the numbers are printed in decimal with
    no padding (single digits give one character), and "/data/exports" at
    2024-05-03T13:00 gives "exports/year = 2024/month = 5/day = 3/hour = 13/".
    The method itself returns that string for the date the clock shows,
    changing nothing but the record that the clock was read. *)
Theorem create_s3_partition_key (w : World) (st : State) :
  let d := now w (tick st) in
  (exists parent_dir,
      last_segment "/" (ftp_directory_path (self st)) parent_dir /\
      create_s3_partition w st =
        (Val (parent_dir ++ "/year = " ++ str (year d) ++ "/month = " ++
              str (month d) ++ "/day = " ++ str (day d) ++ "/hour = " ++
              str (hour d) ++ "/"),
         mkState (self st) (trace st ++ [EvNow d]))) /\
  map str [0; 1; 2; 3; 4; 5; 6; 7; 8; 9]%N =
    ["0"; "1"; "2"; "3"; "4"; "5"; "6"; "7"; "8"; "9"] /\
  s3_partition_of "/data/exports" (mkDatetime 2024 5 3 13 0) =
    Some "exports/year = 2024/month = 5/day = 3/hour = 13/".
Proof.
  intros d. split; [|split; reflexivity].
  destruct (s3_partition_of_format (ftp_directory_path (self st)) d)
    as [seg [Hseg Hfmt]].
  exists seg. split; [exact Hseg|].
  destruct (create_s3_partition_run w st) as [p [Hp Hrun]].
  fold d in Hp, Hrun. rewrite Hfmt in Hp. injection Hp as <-. exact Hrun.
Qed.

(** ** Uploading one file *)

(** [s3_upload_file_multipart], step by step: the call of [upload_fileobj]
    is recorded with the transfer parameters of config.py; [True] comes back
    if it returned, and if it raised the error is printed and [False] comes
    back. *)
Lemma s3_upload_file_multipart_run
    (w : World) (source_file s3_target_file : string) (st : State) :
  let config :=
    mkTransferConfig cfg.MULTIPART_THRESHOLD cfg.MULTIPART_CHUNKSIZE
      cfg.MAX_CUNCURRENCY cfg.USER_THREADS in
  let r :=
    upload_fileobj_result w (tick st) source_file (s3_bucket_name (self st))
      s3_target_file config in
  s3_upload_file_multipart w source_file s3_target_file st =
    (Val (is_none r),
     mkState (self st)
       (trace st ++
        EvUploadFileobj source_file (s3_bucket_name (self st)) s3_target_file
          config r ::
        match r with
        | None => []
        | Some error =>
            [EvPrintErr "could not upload file using multipart upload, error: "
               error]
        end)).
Proof.
  intros config r.
  unfold s3_upload_file_multipart, external, print_error, try_except, bind,
    get_self, get_tick, emit, ret, raise.
  simpl. fold config. fold r.
  destruct r as [error|]; simpl.
  - now rewrite <- app_assoc.
  - reflexivity.
Qed.

(** C10: [s3_upload_file_multipart] is total over its error channel: for
    every world, file, key and state it returns a boolean and raises
    nothing; the boolean is [True] exactly when [upload_fileobj] returned
    and [False] when it raised, whatever it raised.  The object is left as
    it was, and the call made is the one [upload_fileobj] with the
    parameters of config.py. *)
Theorem s3_upload_file_multipart_total
    (w : World) (source_file s3_target_file : string) (st : State) :
  let config :=
    mkTransferConfig cfg.MULTIPART_THRESHOLD cfg.MULTIPART_CHUNKSIZE
      cfg.MAX_CUNCURRENCY cfg.USER_THREADS in
  let r :=
    upload_fileobj_result w (tick st) source_file (s3_bucket_name (self st))
      s3_target_file config in
  exists (uploaded : bool) (st' : State),
    s3_upload_file_multipart w source_file s3_target_file st =
      (Val uploaded, st') /\
    (uploaded = true <-> r = None) /\
    (uploaded = false <-> exists error, r = Some error) /\
    self st' = self st /\
    uploads (trace st') =
      (uploads (trace st) ++ [mkAttempt source_file s3_target_file uploaded])%list.
Proof.
  intros config r.
  pose proof (s3_upload_file_multipart_run w source_file s3_target_file st) as H.
  cbv zeta in H. fold config in H. fold r in H.
  eexists. eexists. split; [exact H|].
  cbn [self trace]. unfold uploads. rewrite flat_map_app.
  destruct r as [error|]; cbn; repeat split; try discriminate; try reflexivity.
  - intros _. now exists error.
  - intros [error [=]].
Qed.
(** ** Moving one file *)

Lemma mv_command_python (o : FTPIngestion) (f : string) :
  (("mv " ++ (ftp_directory_path o ++ "/") ++ f) ++ " ") ++
  ftp_processed_path o ++ f = mv_command o f.
Proof. unfold mv_command. now rewrite !append_assoc. Qed.

(** [move_files_to_processed] on a live SSH client, step by step. *)
Lemma move_files_to_processed_live
    (w : World) (f : string) (o : FTPIngestion) (tr : list event) :
  ssh_client o <> PyNone ->
  let r := exec_command_result w (S (length tr)) (mv_command o f) in
  move_files_to_processed w f (mkState o tr) =
    (Val tt,
     mkState o
       (tr ++
        EvPrint ("moving " ++ f ++ " to processed directory.") ::
        EvExecCommand (mv_command o f) r ::
        match r with
        | None => []
        | Some error =>
            [EvPrintErr "error moving files to processed directory, error: "
               error]
        end)).
Proof.
  intros Hlive r.
  unfold move_files_to_processed, external, method, print, print_error,
    try_except, bind, get_self, get_tick, emit, ret, raise.
  cbn [self trace fst snd].
  destruct (ssh_client o) as [|live]; [congruence|].
  unfold tick. cbn [self trace]. rewrite length_app, Nat.add_1_r.
  cbn [length]. rewrite mv_command_python. fold r.
  rewrite append_assoc.
  destruct r as [error|]; cbn [self trace]; rewrite <- !app_assoc; reflexivity.
Qed.

(** C9: for a live SSH client, [move_files_to_processed] hands the remote
    shell exactly "mv " + pending directory + "/" + file name + " " +
    processed directory + file name: nothing is inserted between the
    processed directory path and the file name and nothing is quoted, so
    the destination is the entry of that name in the processed directory
    only when the configured path ends with the separator.  The call is
    announced first; if it raises, the error is printed and the method
    returns normally. *)
Theorem move_files_to_processed_command
    (w : World) (source_file_name : string) (st : State) :
  ssh_client (self st) <> PyNone ->
  let command :=
    "mv " ++ ftp_directory_path (self st) ++ "/" ++ source_file_name ++ " " ++
    ftp_processed_path (self st) ++ source_file_name in
  let r := exec_command_result w (S (tick st)) command in
  move_files_to_processed w source_file_name st =
    (Val tt,
     mkState (self st)
       (trace st ++
        EvPrint ("moving " ++ source_file_name ++ " to processed directory.") ::
        EvExecCommand command r ::
        match r with
        | None => []
        | Some error =>
            [EvPrintErr "error moving files to processed directory, error: "
               error]
        end)).
Proof.
  intros Hlive command r. destruct st as [o tr].
  exact (move_files_to_processed_live w source_file_name o tr Hlive).
Qed.

Lemma move_files_to_processed_run
    (w : World) (f : string) (o : FTPIngestion) (tr : list event) :
  exists evs,
    move_files_to_processed w f (mkState o tr) = (Val tt, mkState o (tr ++ evs)) /\
    uploads evs = [] /\ opened evs = [] /\ clock_reads evs = [] /\
    filter is_close_call evs = [] /\
    (ssh_client o <> PyNone -> commands evs = [mv_command o f]).
Proof.
  destruct (ssh_client o) as [|live] eqn:Hc.
  - eexists. split.
    + unfold move_files_to_processed, external, method, print, print_error,
        try_except, bind, get_self, get_tick, emit, ret, raise.
      cbn [self trace fst snd]. rewrite Hc. cbn [self trace].
      rewrite <- app_assoc. reflexivity.
    + repeat split. congruence.
  - assert (Hlive : ssh_client o <> PyNone) by congruence.
    pose proof (move_files_to_processed_live w f o tr Hlive) as H.
    cbv zeta in H.
    eexists. split; [exact H|].
    destruct (exec_command_result w _ _); repeat split.
Qed.

(** ** The two loops *)

Lemma uploads_app (a b : list event) : uploads (a ++ b) = (uploads a ++ uploads b)%list.
Proof. apply flat_map_app. Qed.

Lemma succeeded_app (a b : list event) :
  succeeded (a ++ b) = (succeeded a ++ succeeded b)%list.
Proof. apply flat_map_app. Qed.

Lemma opened_app (a b : list event) : opened (a ++ b) = (opened a ++ opened b)%list.
Proof. apply flat_map_app. Qed.

Lemma commands_app (a b : list event) :
  commands (a ++ b) = (commands a ++ commands b)%list.
Proof. apply flat_map_app. Qed.

Lemma clock_reads_app (a b : list event) :
  clock_reads (a ++ b) = (clock_reads a ++ clock_reads b)%list.
Proof. apply flat_map_app. Qed.

Lemma close_calls_app (a b : list event) :
  close_calls (a ++ b) = close_calls a + close_calls b.
Proof. unfold close_calls. now rewrite filter_app, length_app. Qed.

Lemma touched_app (a b : list event) : touched (a ++ b) = (touched a ++ touched b)%list.
Proof. apply filter_app. Qed.

(** One turn of the upload loop, on an object whose SFTP client exists. *)
Lemma upload_loop_step (w : World) (part f : string) (rest acc : list string)
    (o : FTPIngestion) (tr : list event) :
  sftp_client o <> PyNone ->
  let config :=
    mkTransferConfig cfg.MULTIPART_THRESHOLD cfg.MULTIPART_CHUNKSIZE
      cfg.MAX_CUNCURRENCY cfg.USER_THREADS in
  let key := part ++ f in
  upload_loop w part (f :: rest) acc (mkState o tr) =
    match file_result w (length tr) f with
    | Some e => (Raise e, mkState o (tr ++ [EvFile f (Some e)]))
    | None =>
        match upload_fileobj_result w (S (length tr)) f (s3_bucket_name o) key
                config with
        | None =>
            upload_loop w part rest (acc ++ [f])
              (mkState o
                 (tr ++ [EvFile f None;
                         EvUploadFileobj f (s3_bucket_name o) key config None;
                         EvPrint "file uploaded to s3"]))
        | Some error =>
            upload_loop w part rest acc
              (mkState o
                 (tr ++ [EvFile f None;
                         EvUploadFileobj f (s3_bucket_name o) key config
                           (Some error);
                         EvPrintErr
                           "could not upload file using multipart upload, error: "
                           error]))
        end
    end.
Proof.
  intros Hsftp config key.
  cbn [upload_loop]. unfold bind at 1. unfold get_self at 1. cbn [self].
  unfold bind at 1. unfold get_tick at 1. unfold tick. cbn [trace].
  unfold bind at 1.
  destruct (sftp_client o) as [|live]; [congruence|].
  unfold method, external, bind at 1, emit, ret, raise. cbn [self trace].
  destruct (file_result w (length tr) f) as [e|]; [reflexivity|].
  unfold bind at 1.
  rewrite s3_upload_file_multipart_run. cbv zeta. cbn [self trace].
  unfold tick. cbn [trace]. rewrite length_app, Nat.add_1_r. cbn [length].
  fold config. fold key.
  destruct (upload_fileobj_result w (S (length tr)) f (s3_bucket_name o) key
              config) as [error|]; cbn [is_none].
  - rewrite <- !app_assoc. reflexivity.
  - unfold bind at 1, print, emit. cbn [self trace].
    rewrite <- !app_assoc. reflexivity.
Qed.

(** What the upload loop does, for any answers of the world: it never
    moves anything, never reads the clock and never closes; every upload it
    starts goes to [s3_partition + ftp_file]; if it runs to its end it has
    tried every listed file, in order, and returns the files whose upload
    returned; it stops early exactly when a read stream fails to open, and
    then no later file has been tried. *)
Lemma upload_loop_run (w : World) (part : string) (files : list string) :
  forall (acc : list string) (o : FTPIngestion) (tr : list event),
    sftp_client o <> PyNone ->
    exists evs r,
      upload_loop w part files acc (mkState o tr) = (r, mkState o (tr ++ evs)) /\
      commands evs = [] /\ clock_reads evs = [] /\
      filter is_close_call evs = [] /\
      Forall (fun a => att_key a = part ++ att_file a) (uploads evs) /\
      match r with
      | Val files_to_move =>
          files_to_move = (acc ++ succeeded evs)%list /\
          opened evs = files /\
          map att_file (uploads evs) = files /\
          Forall (fun f => exists t, file_result w t f = None) files
      | Raise e =>
          exists done f rest,
            files = (done ++ f :: rest)%list /\
            opened evs = (done ++ [f])%list /\
            map att_file (uploads evs) = done /\
            Forall (fun f => exists t, file_result w t f = None) done /\
            exists t, file_result w t f = Some e
      end.
Proof.
  induction files as [|f rest IH]; intros acc o tr Hsftp.
  - exists [], (Val acc). cbn. rewrite !app_nil_r. repeat split; constructor.
  - rewrite (upload_loop_step w part f rest acc o tr Hsftp). cbv zeta.
    destruct (file_result w (length tr) f) as [e|] eqn:Hopen.
    + exists [EvFile f (Some e)], (Raise e). repeat split; try constructor.
      exists [], f, rest. cbn. repeat split; [constructor|].
      now exists (length tr).
    + destruct (upload_fileobj_result w (S (length tr)) f (s3_bucket_name o)
                  (part ++ f) _) as [error|].
      * match goal with
        | |- context [upload_loop w part rest acc (mkState o (tr ++ ?new))] =>
            destruct (IH acc o (tr ++ new)%list Hsftp)
              as (evs & r & Hrun & Hcmd & Hclk & Hcls & Hkeys & Hres);
            exists (new ++ evs)%list, r
        end.
        rewrite Hrun, <- app_assoc.
        rewrite commands_app, clock_reads_app, filter_app, uploads_app,
          Hcmd, Hclk, Hcls.
        repeat split; try reflexivity.
        -- cbn. constructor; [reflexivity | exact Hkeys].
        -- destruct r as [fm | e].
           ++ destruct Hres as (Hfm & Hop & Hup & Hall).
              rewrite succeeded_app, opened_app. cbn.
              rewrite Hop, Hup. repeat split; [exact Hfm|].
              constructor; [now exists (length tr) | exact Hall].
           ++ destruct Hres as (done & g & rest' & Hfiles & Hop & Hup & Hall & Hin).
              exists (f :: done), g, rest'. rewrite opened_app. cbn.
              rewrite Hfiles, Hop, Hup. repeat split; [|exact Hin].
              constructor; [now exists (length tr) | exact Hall].
      * match goal with
        | |- context [upload_loop w part rest ?acc' (mkState o (tr ++ ?new))] =>
            destruct (IH acc' o (tr ++ new)%list Hsftp)
              as (evs & r & Hrun & Hcmd & Hclk & Hcls & Hkeys & Hres);
            exists (new ++ evs)%list, r
        end.
        rewrite Hrun, <- app_assoc.
        rewrite commands_app, clock_reads_app, filter_app, uploads_app,
          Hcmd, Hclk, Hcls.
        repeat split; try reflexivity.
        -- cbn. constructor; [reflexivity | exact Hkeys].
        -- destruct r as [fm | e].
           ++ destruct Hres as (Hfm & Hop & Hup & Hall).
              rewrite succeeded_app, opened_app. cbn.
              rewrite Hop, Hup. repeat split.
              ** rewrite Hfm, <- app_assoc. reflexivity.
              ** constructor; [now exists (length tr) | exact Hall].
           ++ destruct Hres as (done & g & rest' & Hfiles & Hop & Hup & Hall & Hin).
              exists (f :: done), g, rest'. rewrite opened_app. cbn.
              rewrite Hfiles, Hop, Hup. repeat split; [|exact Hin].
              constructor; [now exists (length tr) | exact Hall].
Qed.

(** The move loop tries every file of its list, in order, and returns
    normally whatever [exec_command] does: a failed move is printed and the
    loop goes on. *)
Lemma move_loop_run (w : World) (files : list string) :
  forall (o : FTPIngestion) (tr : list event),
    exists evs,
      move_loop w files (mkState o tr) = (Val tt, mkState o (tr ++ evs)) /\
      uploads evs = [] /\ opened evs = [] /\ clock_reads evs = [] /\
      filter is_close_call evs = [] /\
      (ssh_client o <> PyNone -> commands evs = map (mv_command o) files).
Proof.
  induction files as [|f rest IH]; intros o tr.
  - exists []. cbn. rewrite app_nil_r. repeat split.
  - destruct (move_files_to_processed_run w f o tr)
      as (e1 & Hrun1 & Hu1 & Ho1 & Hc1 & Hx1 & Hm1).
    destruct (IH o (tr ++ e1)%list) as (e2 & Hrun2 & Hu2 & Ho2 & Hc2 & Hx2 & Hm2).
    exists (e1 ++ e2)%list.
    cbn [move_loop]. unfold bind at 1. rewrite Hrun1, Hrun2, <- app_assoc.
    rewrite uploads_app, opened_app, clock_reads_app, filter_app, commands_app,
      Hu1, Hu2, Ho1, Ho2, Hc1, Hc2, Hx1, Hx2.
    repeat split. intros Hlive. rewrite (Hm1 Hlive), (Hm2 Hlive). reflexivity.
Qed.

(** ** Opening the session *)

(** The object once both connections are up. *)
Lemma create_sftp_connection_opened (w : World) (s : Settings) :
  connect_result w = None -> open_sftp_result w = None ->
  create_sftp_connection w (initial s) =
    (Val true,
     mkState
       (mkFTPIngestion (Obj true) (Obj true) true true (FTP_HOST s) (FTP_PORT s)
          (FTP_USERNAME s) (FTP_PASSWORD s) (S3_BUCKET s) (PARENT_DIR_PATH s)
          (PROCESSED_DIR_PATH s))
       [EvPrint "Establishing connection with host...";
        EvConnect (FTP_HOST s) (FTP_USERNAME s) (FTP_PASSWORD s) (FTP_PORT s) None;
        EvPrint "connected";
        EvPrint "Establishing SFTP connection...";
        EvOpenSftp None;
        EvPrint "SFTP connection successfull"]).
Proof.
  intros Hssh Hsftp.
  unfold create_sftp_connection, create_ssh_connection, external, method,
    print, print_error, try_except, bind, get_self, emit, ret, raise,
    set_ssh_client, set_sftp_client, set_ssh_ok, set_sftp_ok, initial, init.
  rewrite Hssh. cbn. rewrite Hsftp. reflexivity.
Qed.

(** The session did not open: [connect] raised, or [open_sftp] did.  The
    job has then touched no file, and [self.sftp_client] is still [None]. *)
Lemma create_sftp_connection_failed (w : World) (s : Settings) :
  connect_result w <> None \/ open_sftp_result w <> None ->
  exists o evs,
    create_sftp_connection w (initial s) = (Val false, mkState o evs) /\
    sftp_client o = PyNone /\
    touched evs = [] /\ close_calls evs = 0 /\ clock_reads evs = [] /\
    uploads evs = [] /\ opened evs = [] /\ commands evs = [].
Proof.
  intros Hfail.
  unfold create_sftp_connection, create_ssh_connection, external, method,
    print, print_error, try_except, bind, get_self, emit, ret, raise,
    set_ssh_client, set_sftp_client, set_ssh_ok, set_sftp_ok, initial, init.
  destruct (connect_result w) as [e|].
  - destruct e; cbn; eexists; eexists; (split; [reflexivity|]);
      repeat split.
  - cbn. destruct (open_sftp_result w) as [e|].
    + destruct e; cbn; eexists; eexists; (split; [reflexivity|]);
        repeat split.
    + destruct Hfail; congruence.
Qed.

Lemma create_sftp_connection_result (w : World) (s : Settings) :
  fst (create_sftp_connection w (initial s)) =
    Val (is_none (connect_result w) && is_none (open_sftp_result w)).
Proof.
  destruct (connect_result w) as [e|] eqn:Hssh.
  - destruct (create_sftp_connection_failed w s) as (o & evs & H & _).
    + left. congruence.
    + now rewrite H.
  - destruct (open_sftp_result w) as [e|] eqn:Hsftp.
    + destruct (create_sftp_connection_failed w s) as (o & evs & H & _).
      * right. congruence.
      * now rewrite H.
    + now rewrite create_sftp_connection_opened.
Qed.

(** ** Closing *)

Lemma close_connections_live (o : FTPIngestion) (tr : list event)
    (a b : bool) :
  sftp_client o = Obj a -> ssh_client o = Obj b ->
  exists o',
    close_connections (mkState o tr) =
      (Val tt,
       mkState o' (tr ++ [EvPrint "closing connections"; EvSftpClose; EvSshClose])).
Proof.
  intros Hsftp Hssh.
  unfold close_connections, method, print, bind, get_self, emit, ret, raise,
    set_ssh_client, set_sftp_client.
  destruct o; cbn in Hsftp, Hssh; subst; cbn.
  eexists. rewrite <- !app_assoc. reflexivity.
Qed.

(** On an object whose [sftp_client] is [None], [close_connections] raises
    [AttributeError] at its first [close()] and never reaches the second. *)
Lemma close_connections_none (o : FTPIngestion) (tr : list event) :
  sftp_client o = PyNone ->
  close_connections (mkState o tr) =
    (Raise AttributeError, mkState o (tr ++ [EvPrint "closing connections"])).
Proof.
  intros Hsftp.
  unfold close_connections, method, print, bind, get_self, emit, ret, raise.
  cbn [self trace]. rewrite Hsftp. reflexivity.
Qed.

(** ** Whole runs *)

(** A run whose session did not open. *)
Lemma main_not_opened (w : World) (s : Settings) :
  connect_result w <> None \/ open_sftp_result w <> None ->
  exists o evs,
    create_sftp_connection w (initial s) = (Val false, mkState o evs) /\
    main w s =
      (Raise AttributeError,
       mkState o
         (evs ++ [EvPrint "Could not establish SFTP connection";
                  EvPrint "closing connections"])).
Proof.
  intros Hfail.
  destruct (create_sftp_connection_failed w s Hfail)
    as (o & evs & Hconn & Hnone & _).
  exists o, evs. split; [exact Hconn|].
  unfold main, initiate_ingestion, try_except, bind.
  rewrite Hconn. unfold print, emit. cbn [self trace].
  rewrite close_connections_none by exact Hnone.
  now rewrite <- app_assoc.
Qed.

Lemma sftp_chdir_run (w : World) (o : FTPIngestion) (tr : list event) :
  sftp_client o <> PyNone ->
  sftp_chdir w (mkState o tr) =
    (match chdir_result w (ftp_directory_path o) with
     | None => Val tt
     | Some e => Raise e
     end,
     mkState o
       (tr ++ [EvChdir (ftp_directory_path o)
                 (chdir_result w (ftp_directory_path o))])).
Proof.
  intros Hsftp.
  unfold sftp_chdir, external, method, bind, get_self, emit, ret, raise.
  cbn [self trace].
  destruct (sftp_client o); [congruence|].
  destruct (chdir_result w (ftp_directory_path o)); reflexivity.
Qed.

Lemma sftp_listdir_run (w : World) (o : FTPIngestion) (tr : list event) :
  sftp_client o <> PyNone ->
  sftp_listdir w (mkState o tr) =
    (match listdir_result w with
     | inr names => Val names
     | inl e => Raise e
     end,
     mkState o (tr ++ [EvListdir (listdir_result w)])).
Proof.
  intros Hsftp.
  unfold sftp_listdir, method, bind, get_self, emit, ret, raise.
  cbn [self trace].
  destruct (sftp_client o); [congruence|].
  destruct (listdir_result w); reflexivity.
Qed.

(** A run whose session opens and whose directory lists as [files]: the
    trace is a prelude (connection, [chdir], [listdir]), one reading of the
    clock, the events of the upload loop, and a tail (the moves or the
    report of the failure, then the closing). *)
Lemma main_listed (w : World) (s : Settings) (files : list string) :
  lists w s files ->
  exists pre part evs r tail o',
    main w s = (Val tt, mkState o' (pre ++ EvNow (now w 8) :: evs ++ tail)%list) /\
    (uploads pre = [] /\ opened pre = [] /\ clock_reads pre = [] /\
     commands pre = [] /\ close_calls pre = 0) /\
    s3_partition_of (PARENT_DIR_PATH s) (now w 8) = Some part /\
    (commands evs = [] /\ clock_reads evs = [] /\ close_calls evs = 0 /\
     Forall (fun a => att_key a = part ++ att_file a) (uploads evs)) /\
    (uploads tail = [] /\ opened tail = [] /\ clock_reads tail = [] /\
     close_calls tail = 1) /\
    match r with
    | Val files_to_move =>
        files_to_move = succeeded evs /\
        opened evs = files /\
        map att_file (uploads evs) = files /\
        commands tail = map (mv_command (init s)) files_to_move /\
        Forall (fun f => exists t, file_result w t f = None) files
    | Raise e =>
        (exists done f rest,
            files = (done ++ f :: rest)%list /\
            opened evs = (done ++ [f])%list /\
            map att_file (uploads evs) = done /\
            Forall (fun f => exists t, file_result w t f = None) done /\
            exists t, file_result w t f = Some e) /\
        commands tail = []
    end.
Proof.
  intros (Hssh & Hsftp & Hchdir & Hlist).
  unfold main, initiate_ingestion, try_except, bind.
  rewrite (create_sftp_connection_opened w s Hssh Hsftp).
  set (o := mkFTPIngestion (Obj true) (Obj true) true true (FTP_HOST s)
              (FTP_PORT s) (FTP_USERNAME s) (FTP_PASSWORD s) (S3_BUCKET s)
              (PARENT_DIR_PATH s) (PROCESSED_DIR_PATH s)).
  assert (Hlive : sftp_client o <> PyNone) by (cbn; discriminate).
  assert (Hlive' : ssh_client o <> PyNone) by (cbn; discriminate).
  rewrite (sftp_chdir_run w o _ Hlive).
  change (ftp_directory_path o) with (PARENT_DIR_PATH s). rewrite Hchdir.
  rewrite (sftp_listdir_run w o _ Hlive), Hlist.
  match goal with
  | |- context [create_s3_partition w (mkState o ?tr)] =>
      destruct (create_s3_partition_run w (mkState o tr)) as (part & Hpart & Hrun);
      set (pre := tr) in *
  end.
  rewrite Hrun. cbn [self trace] in *. unfold tick in *. cbn [trace] in *.
  change (ftp_directory_path o) with (PARENT_DIR_PATH s) in Hpart.
  change (length pre) with 8 in *.
  destruct (upload_loop_run w part files [] o (pre ++ [EvNow (now w 8)])%list Hlive)
    as (evs & r & Hloop & Hcmd & Hclk & Hcls & Hkeys & Hres).
  rewrite Hloop.
  assert (Hshape : forall tail,
             (((pre ++ [EvNow (now w 8)]) ++ evs) ++ tail =
              pre ++ EvNow (now w 8) :: evs ++ tail)%list).
  { intros tail. now rewrite <- !app_assoc. }
  assert (Hcls' : close_calls evs = 0) by (unfold close_calls; now rewrite Hcls).
  destruct r as [fm | e].
  - destruct Hres as (Hfm & Hop & Hup & Hall). cbn [app] in Hfm.
    destruct fm as [|f0 fm'].
    + unfold print, emit. cbn [self trace].
      destruct (close_connections_live o
                  (((pre ++ [EvNow (now w 8)]) ++ evs) ++
                   [EvPrint "nothing to upload"])%list
                  true true eq_refl eq_refl) as (o' & Hclose).
      rewrite Hclose.
      exists pre, part, evs, (Val []),
        [EvPrint "nothing to upload"; EvPrint "closing connections";
         EvSftpClose; EvSshClose], o'.
      rewrite <- Hshape, <- !app_assoc.
      repeat split; try assumption; reflexivity.
    + destruct (move_loop_run w (f0 :: fm') o
                  ((pre ++ [EvNow (now w 8)]) ++ evs)%list)
        as (evm & Hmove & Hu & Ho & Hc & Hx & Hm).
      rewrite Hmove.
      destruct (close_connections_live o
                  (((pre ++ [EvNow (now w 8)]) ++ evs) ++ evm)%list
                  true true eq_refl eq_refl) as (o' & Hclose).
      rewrite Hclose.
      exists pre, part, evs, (Val (f0 :: fm')),
        (evm ++ [EvPrint "closing connections"; EvSftpClose; EvSshClose])%list, o'.
      rewrite <- Hshape, <- !app_assoc.
      assert (Hx' : close_calls evm = 0)
        by (unfold close_calls; now rewrite Hx).
      rewrite uploads_app, opened_app, clock_reads_app, close_calls_app,
        commands_app, Hu, Ho, Hc, Hx', (Hm Hlive').
      change (commands [EvPrint "closing connections"; EvSftpClose; EvSshClose])
        with (@nil string).
      rewrite !app_nil_r.
      change (mv_command o) with (mv_command (init s)).
      repeat split; try assumption; reflexivity.
  - unfold print_error, emit. cbn [self trace].
    destruct (close_connections_live o
                (((pre ++ [EvNow (now w 8)]) ++ evs) ++
                 [EvPrintErr "file ingestion failed, error: " e])%list
                true true eq_refl eq_refl) as (o' & Hclose).
    rewrite Hclose.
    exists pre, part, evs, (Raise e),
      [EvPrintErr "file ingestion failed, error: " e;
       EvPrint "closing connections"; EvSftpClose; EvSshClose], o'.
    rewrite <- Hshape, <- !app_assoc.
    repeat split; try assumption; reflexivity.
Qed.

(** A run whose session opens but whose directory cannot be entered or
    listed: the failure is printed, nothing is opened, uploaded or moved,
    and the connections are closed. *)
Lemma main_listing_failed (w : World) (s : Settings) :
  connect_result w = None -> open_sftp_result w = None ->
  chdir_result w (PARENT_DIR_PATH s) <> None \/
  (exists e, listdir_result w = inl e) ->
  exists o' evs,
    main w s = (Val tt, mkState o' evs) /\
    uploads evs = [] /\ opened evs = [] /\ clock_reads evs = [] /\
    commands evs = [] /\ close_calls evs = 1.
Proof.
  intros Hssh Hsftp Hfail.
  unfold main, initiate_ingestion, try_except, bind.
  rewrite (create_sftp_connection_opened w s Hssh Hsftp).
  set (o := mkFTPIngestion (Obj true) (Obj true) true true (FTP_HOST s)
              (FTP_PORT s) (FTP_USERNAME s) (FTP_PASSWORD s) (S3_BUCKET s)
              (PARENT_DIR_PATH s) (PROCESSED_DIR_PATH s)).
  assert (Hlive : sftp_client o <> PyNone) by (cbn; discriminate).
  rewrite (sftp_chdir_run w o _ Hlive).
  change (ftp_directory_path o) with (PARENT_DIR_PATH s).
  destruct (chdir_result w (PARENT_DIR_PATH s)) as [e|].
  - unfold print_error, emit. cbn [self trace].
    match goal with
    | |- context [close_connections (mkState o ?tr)] =>
        destruct (close_connections_live o tr true true eq_refl eq_refl)
          as (o' & Hclose)
    end.
    rewrite Hclose. eexists. eexists. split; [reflexivity|].
    repeat split.
  - destruct Hfail as [Hfail | [e Hlist]]; [congruence|].
    rewrite (sftp_listdir_run w o _ Hlive), Hlist.
    unfold print_error, emit. cbn [self trace].
    match goal with
    | |- context [close_connections (mkState o ?tr)] =>
        destruct (close_connections_live o tr true true eq_refl eq_refl)
          as (o' & Hclose)
    end.
    rewrite Hclose. eexists. eexists. split; [reflexivity|].
    repeat split.
Qed.

(** Every run is of one of three kinds. *)
Lemma run_kinds (w : World) (s : Settings) :
  (connect_result w <> None \/ open_sftp_result w <> None) \/
  (connect_result w = None /\ open_sftp_result w = None /\
   (chdir_result w (PARENT_DIR_PATH s) <> None \/
    exists e, listdir_result w = inl e)) \/
  (exists files, lists w s files).
Proof.
  destruct (connect_result w) as [e|] eqn:Hssh.
  { left. left. discriminate. }
  destruct (open_sftp_result w) as [e|] eqn:Hsftp.
  { left. right. discriminate. }
  right.
  destruct (chdir_result w (PARENT_DIR_PATH s)) as [e|] eqn:Hchdir.
  { left. repeat split. left. discriminate. }
  destruct (listdir_result w) as [e|files] eqn:Hlist.
  { left. repeat split. right. now exists e. }
  right. exists files. now repeat split.
Qed.

Lemma succeeded_uploads (tr : list event) :
  succeeded tr = map att_file (filter att_ok (uploads tr)).
Proof.
  induction tr as [|e tr IH]; [reflexivity|].
  change (e :: tr) with ([e] ++ tr)%list.
  rewrite succeeded_app, uploads_app, filter_app, map_app, IH.
  f_equal. destruct e; try reflexivity. destruct r; reflexivity.
Qed.

Lemma no_uploads_no_success (tr : list event) :
  uploads tr = [] -> succeeded tr = [].
Proof. intros H. now rewrite succeeded_uploads, H. Qed.

(** [close_connections] is entered exactly once in every run. *)
Lemma close_connections_invoked_once (w : World) (s : Settings) :
  close_calls (trace (snd (main w s))) = 1.
Proof.
  destruct (run_kinds w s) as [Hfail | [(Hssh & Hsftp & Hfail) | [files Hl]]].
  - destruct (create_sftp_connection_failed w s Hfail)
      as (o & evs & Hconn & _ & _ & Hcls & _).
    destruct (main_not_opened w s Hfail) as (o' & evs' & Hconn' & Hmain).
    rewrite Hconn in Hconn'. injection Hconn' as <- <-.
    rewrite Hmain. cbn [snd trace]. rewrite close_calls_app, Hcls. reflexivity.
  - destruct (main_listing_failed w s Hssh Hsftp Hfail)
      as (o' & evs & Hmain & _ & _ & _ & _ & Hcls).
    now rewrite Hmain.
  - destruct (main_listed w s files Hl)
      as (pre & part & evs & r & tail & o' & Hmain & (_ & _ & _ & _ & Hp) & _ &
          (_ & _ & He & _) & (_ & _ & _ & Ht) & _).
    rewrite Hmain. cbn [snd trace].
    change (EvNow (now w 8) :: evs ++ tail)%list
      with ([EvNow (now w 8)] ++ evs ++ tail)%list.
    rewrite !close_calls_app, Hp, He, Ht. reflexivity.
Qed.

(** A run ends with an exception exactly when the session did not open:
    the exception is the [AttributeError] of [close_connections]. *)
Lemma main_result (w : World) (s : Settings) :
  fst (main w s) =
    if is_none (connect_result w) && is_none (open_sftp_result w)
    then Val tt else Raise AttributeError.
Proof.
  destruct (run_kinds w s) as [Hfail | [(Hssh & Hsftp & Hfail) | [files Hl]]].
  - destruct (main_not_opened w s Hfail) as (o' & evs' & _ & Hmain).
    rewrite Hmain. cbn [fst].
    destruct Hfail as [H | H].
    + destruct (connect_result w); [reflexivity | congruence].
    + destruct (open_sftp_result w); [|congruence].
      now rewrite andb_false_r.
  - destruct (main_listing_failed w s Hssh Hsftp Hfail) as (o' & evs & Hmain & _).
    now rewrite Hmain, Hssh, Hsftp.
  - destruct (main_listed w s files Hl)
      as (pre & part & evs & r & tail & o' & Hmain & _).
    destruct Hl as (Hssh & Hsftp & _).
    now rewrite Hmain, Hssh, Hsftp.
Qed.

(** When every read stream opens, every listed file has its upload tried,
    in the order of the listing, whatever the uploads answer. *)
Lemma upload_failures_are_isolated (w : World) (s : Settings) (files : list string) :
  lists w s files ->
  (forall t f, file_result w t f = None) ->
  map att_file (uploads (trace (snd (main w s)))) = files.
Proof.
  intros Hl Hopen.
  destruct (main_listed w s files Hl)
    as (pre & part & evs & r & tail & o' & Hmain & (Hpu & _) & _ & _ &
        (Htu & _) & Hres).
  rewrite Hmain. cbn [snd trace].
  change (EvNow (now w 8) :: evs ++ tail)%list
    with ([EvNow (now w 8)] ++ evs ++ tail)%list.
  rewrite !uploads_app, Hpu, Htu, app_nil_r.
  destruct r as [fm | e].
  - apply Hres.
  - destruct Hres as ((done & f & rest & _ & _ & _ & _ & t & Hraise) & _).
    rewrite Hopen in Hraise. discriminate.
Qed.


(** ** The claims about whole runs *)

(** C8: when the session does not open ([create_sftp_connection] returns
    [False]), the run touches no file: no [chdir], no listing, no read
    stream, no upload and no move; after the connection attempt it prints
    that the connection failed and goes straight into [close_connections]. *)
Theorem unopened_session_touches_nothing (w : World) (s : Settings) :
  fst (create_sftp_connection w (initial s)) = Val false ->
  let tr := trace (snd (main w s)) in
  touched tr = [] /\
  uploads tr = [] /\ opened tr = [] /\ commands tr = [] /\
  tr = (trace (snd (create_sftp_connection w (initial s))) ++
        [EvPrint "Could not establish SFTP connection";
         EvPrint "closing connections"])%list.
Proof.
  intros Hfalse tr.
  assert (Hfail : connect_result w <> None \/ open_sftp_result w <> None).
  { rewrite create_sftp_connection_result in Hfalse.
    destruct (connect_result w); [left; discriminate|].
    destruct (open_sftp_result w); [right; discriminate|].
    discriminate. }
  destruct (create_sftp_connection_failed w s Hfail)
    as (o & evs & Hconn & _ & Htouch & _ & _ & Hup & Hop & Hcmd).
  destruct (main_not_opened w s Hfail) as (o' & evs' & Hconn' & Hmain).
  rewrite Hconn in Hconn'. injection Hconn' as <- <-.
  unfold tr. rewrite Hmain, Hconn. cbn [snd trace].
  rewrite touched_app, uploads_app, opened_app, commands_app,
    Htouch, Hup, Hop, Hcmd.
  repeat split.
Qed.

Lemma unopened_session_touches_nothing_witness :
  fst (create_sftp_connection world_no_sftp (initial sample_settings)) = Val false /\
  touched (trace (snd (main world_no_sftp sample_settings))) = [].
Proof.
  split.
  - vm_compute. reflexivity.
  - apply (unopened_session_touches_nothing world_no_sftp sample_settings).
    vm_compute. reflexivity.
Defined.

(** C5: in a run that reaches the per-file loop, the clock is read and the
    partition string built exactly once, before any read stream is opened
    or any upload started, and every upload of the run goes to that one
    string followed by the file's name, however far the clock has moved on
    since. *)
Theorem partition_computed_once (w : World) (s : Settings) (files : list string) :
  lists w s files ->
  exists before d s3_partition after,
    trace (snd (main w s)) = (before ++ EvNow d :: after)%list /\
    clock_reads before = [] /\ opened before = [] /\ uploads before = [] /\
    clock_reads after = [] /\
    s3_partition_of (PARENT_DIR_PATH s) d = Some s3_partition /\
    Forall (fun a => att_key a = s3_partition ++ att_file a) (uploads after).
Proof.
  intros Hl.
  destruct (main_listed w s files Hl)
    as (pre & part & evs & r & tail & o' & Hmain & (Hpu & Hpo & Hpc & _ & _) &
        Hpart & (_ & Hec & _ & Hkeys) & (Htu & _ & Htc & _) & _).
  exists pre, (now w 8), part, (evs ++ tail)%list.
  rewrite Hmain. cbn [snd trace].
  rewrite clock_reads_app, uploads_app, Hec, Htc, Htu, !app_nil_r.
  repeat split; assumption.
Qed.

Lemma partition_computed_once_witness :
  lists world_all_ok sample_settings ["a.csv"; "b.bin"] /\
  exists before d s3_partition after,
    trace (snd (main world_all_ok sample_settings)) =
      (before ++ EvNow d :: after)%list /\
    clock_reads before = [] /\ opened before = [] /\ uploads before = [] /\
    clock_reads after = [] /\
    s3_partition_of (PARENT_DIR_PATH sample_settings) d = Some s3_partition /\
    Forall (fun a => att_key a = s3_partition ++ att_file a) (uploads after).
Proof.
  split.
  - vm_compute. repeat split.
  - apply (partition_computed_once world_all_ok sample_settings ["a.csv"; "b.bin"]).
    vm_compute. repeat split.
Defined.

(** The clock of [world_all_ok] shows a new hour at every event, and both
    files still land in the partition of the one reading. *)
Example shared_partition_example :
  uploads (trace (snd (main world_all_ok sample_settings))) =
    [mkAttempt "a.csv" "exports/year = 2024/month = 5/day = 3/hour = 8/a.csv" true;
     mkAttempt "b.bin" "exports/year = 2024/month = 5/day = 3/hour = 8/b.bin" true].
Proof. vm_compute. reflexivity. Qed.

(** C6: in every run, every move command issued is the move of a file whose
    upload had returned successfully before: the run splits into a part
    with no move, and a part with no upload whose commands are the move
    commands of files that all succeeded in the first part.  A file whose
    upload failed is not among them. *)
Theorem moves_only_after_success (w : World) (s : Settings) :
  exists before after files_to_move,
    trace (snd (main w s)) = (before ++ after)%list /\
    commands before = [] /\
    uploads after = [] /\
    commands after = map (mv_command (init s)) files_to_move /\
    (forall f, In f files_to_move -> In f (succeeded before)).
Proof.
  destruct (run_kinds w s) as [Hfail | [(Hssh & Hsftp & Hfail) | [files Hl]]].
  - destruct (create_sftp_connection_failed w s Hfail)
      as (o & evs & Hconn & _ & _ & _ & _ & _ & _ & Hcmd).
    destruct (main_not_opened w s Hfail) as (o' & evs' & Hconn' & Hmain).
    rewrite Hconn in Hconn'. injection Hconn' as <- <-.
    exists (trace (snd (main w s))), [], [].
    rewrite app_nil_r, Hmain. cbn [snd trace].
    rewrite commands_app, Hcmd. repeat split. intros f [].
  - destruct (main_listing_failed w s Hssh Hsftp Hfail)
      as (o' & evs & Hmain & _ & _ & _ & Hcmd & _).
    exists evs, [], []. rewrite app_nil_r, Hmain. repeat split.
    + exact Hcmd.
    + intros f [].
  - destruct (main_listed w s files Hl)
      as (pre & part & evs & r & tail & o' & Hmain & (_ & _ & _ & Hpc & _) &
          _ & (Hec & _) & (Htu & _) & Hres).
    exists (pre ++ EvNow (now w 8) :: evs)%list, tail,
      (match r with Val fm => fm | Raise _ => [] end).
    rewrite Hmain. cbn [snd trace].
    change (EvNow (now w 8) :: evs ++ tail)%list
      with ([EvNow (now w 8)] ++ evs ++ tail)%list.
    change (EvNow (now w 8) :: evs)%list with ([EvNow (now w 8)] ++ evs)%list.
    rewrite !commands_app, Hpc, Hec, !succeeded_app.
    repeat split.
    + now rewrite <- !app_assoc.
    + exact Htu.
    + destruct r as [fm | e]; [apply Hres | apply Hres].
    + destruct r as [fm | e]; [|intros f []].
      destruct Hres as (Hfm & _). intros f Hin. rewrite Hfm in Hin.
      apply in_or_app. right. apply in_or_app. now right.
Qed.

Lemma move_files_to_processed_command_witness :
  ssh_client (self sample_connected) <> PyNone /\
  let command :=
    "mv " ++ ftp_directory_path (self sample_connected) ++ "/" ++ "a.csv" ++
    " " ++ ftp_processed_path (self sample_connected) ++ "a.csv" in
  let r := exec_command_result world_all_ok (S (tick sample_connected)) command in
  move_files_to_processed world_all_ok "a.csv" sample_connected =
    (Val tt,
     mkState (self sample_connected)
       (trace sample_connected ++
        EvPrint ("moving " ++ "a.csv" ++ " to processed directory.") ::
        EvExecCommand command r ::
        match r with
        | None => []
        | Some error =>
            [EvPrintErr "error moving files to processed directory, error: "
               error]
        end)).
Proof.
  split.
  - vm_compute. discriminate.
  - apply (move_files_to_processed_command world_all_ok "a.csv" sample_connected).
    vm_compute. discriminate.
Defined.

(** The destination is the two strings glued together: with a processed
    path that lacks its final separator the file lands beside the
    directory, and a name with a space makes four arguments of two. *)
Example move_command_examples :
  mv_command (init sample_settings) "a.csv" =
    "mv /data/exports/a.csv /data/processed/a.csv" /\
  mv_command (init settings_no_separator) "a.csv" =
    "mv /data/exports/a.csv /data/processeda.csv" /\
  mv_command (init sample_settings) "my file.csv" =
    "mv /data/exports/my file.csv /data/processed/my file.csv".
Proof. repeat split; vm_compute; reflexivity. Qed.

(** The transfer parameters the job hands to [upload_fileobj]. *)
Lemma transfer_parameters :
  cfg.MULTIPART_THRESHOLD = 104857600%N /\
  cfg.MULTIPART_CHUNKSIZE = 20971520%N /\
  cfg.MAX_CUNCURRENCY = 10%N /\
  cfg.USER_THREADS = true.
Proof. repeat split; vm_compute; reflexivity. Qed.

(** ** Where the code departs from its description *)

(** C1: [close_connections] is entered once in every run, but it is not
    safe on a session that never opened.  With wrong credentials [self.sftp_client] is still
    [None], [self.sftp_client.close()] raises [AttributeError], and the run
    ends with that exception.  When SSH connected and only the SFTP channel
    failed, the same exception leaves the live SSH client unclosed. *)
Theorem close_connections_raises_when_unopened :
  fst (main world_bad_credentials sample_settings) = Raise AttributeError /\
  fst (main world_no_sftp sample_settings) = Raise AttributeError /\
  ssh_client (self (snd (main world_no_sftp sample_settings))) = Obj true /\
  ~ In EvSshClose (trace (snd (main world_no_sftp sample_settings))) /\
  close_calls (trace (snd (main world_no_sftp sample_settings))) = 1.
Proof.
  split; [vm_compute; reflexivity|].
  split; [vm_compute; reflexivity|].
  split; [vm_compute; reflexivity|].
  split; [|vm_compute; reflexivity].
  vm_compute. intuition discriminate.
Qed.

(** C2: an upload that fails is isolated (the method answers [False]), a
    read stream that fails to open is not.  In [world_unreadable_entry]
    the listing is a.csv, archive, b.bin and [archive] cannot be opened:
    the [IOError] leaves the loop, b.bin is never tried, and a.csv, already
    uploaded, is not moved. *)
Theorem unreadable_entry_aborts_run :
  let tr := trace (snd (main world_unreadable_entry sample_settings)) in
  lists world_unreadable_entry sample_settings ["a.csv"; "archive"; "b.bin"] /\
  opened tr = ["a.csv"; "archive"] /\
  uploads tr =
    [mkAttempt "a.csv" "exports/year = 2024/month = 5/day = 3/hour = 8/a.csv"
       true] /\
  commands tr = [] /\
  In (EvPrintErr "file ingestion failed, error: " IOError) tr.
Proof.
  intros tr. subst tr.
  split; [vm_compute; repeat split|].
  split; [vm_compute; reflexivity|].
  split; [vm_compute; reflexivity|].
  split; [vm_compute; reflexivity|].
  vm_compute. tauto.
Qed.


(** * Further properties of the methods *)

(** ** Connecting *)

(** X1: [create_ssh_connection] never raises.  It answers [True] exactly
    when [connect] returned and keeps that answer in [ssh_ok]; whatever
    [connect] does, [ssh_client] is afterwards a client object (live only
    if [connect] returned), never [None]; the SFTP fields are not touched;
    and what is printed after the attempt depends on the class of the
    exception. *)
Theorem create_ssh_connection_outcome (w : World) (st : State) :
  exists st',
    create_ssh_connection w st = (Val (is_none (connect_result w)), st') /\
    ssh_ok (self st') = is_none (connect_result w) /\
    ssh_client (self st') = Obj (is_none (connect_result w)) /\
    sftp_client (self st') = sftp_client (self st) /\
    sftp_ok (self st') = sftp_ok (self st) /\
    trace st' =
      (trace st ++
       [EvPrint "Establishing connection with host...";
        EvConnect (ftp_host (self st)) (ftp_username (self st))
          (ftp_password (self st)) (ftp_port (self st)) (connect_result w);
        connect_report (connect_result w)])%list.
Proof.
  destruct st as [o tr].
  unfold create_ssh_connection, external, print, print_error, try_except,
    bind, get_self, emit, ret, raise, set_ssh_client, set_ssh_ok.
  cbn [self trace ssh_client sftp_client ssh_ok sftp_ok ftp_host ftp_port
       ftp_username ftp_password].
  destruct (connect_result w) as [e|].
  - destruct e; cbn; eexists; (split; [reflexivity|]); cbn;
      rewrite <- ?app_assoc; repeat split.
  - cbn. eexists. split; [reflexivity|]. cbn.
    rewrite <- ?app_assoc. repeat split.
Qed.

(** X2: [create_sftp_connection] never raises, and asks for the SFTP
    channel only when [connect] returned.  Its answer is [True] when both
    calls returned and [False] when [open_sftp] raised; when [connect]
    raised, [sftp_ok] is not reset, so the answer is whatever the flag held
    before the call ([False] on a fresh object), and [sftp_client] is the
    client the object already had. *)
Theorem create_sftp_connection_outcome (w : World) (st : State) :
  let answer :=
    match connect_result w, open_sftp_result w with
    | Some _, _ => sftp_ok (self st)
    | None, None => true
    | None, Some _ => false
    end in
  exists st',
    create_sftp_connection w st = (Val answer, st') /\
    sftp_ok (self st') = answer /\
    sftp_client (self st') =
      (if is_none (connect_result w) && is_none (open_sftp_result w)
       then Obj true else sftp_client (self st)) /\
    (forall r, In (EvOpenSftp r) (trace st') ->
               In (EvOpenSftp r) (trace st) \/
               (connect_result w = None /\ r = open_sftp_result w)).
Proof.
  destruct st as [o tr].
  unfold create_sftp_connection, create_ssh_connection, external, method,
    print, print_error, try_except, bind, get_self, emit, ret, raise,
    set_ssh_client, set_sftp_client, set_ssh_ok, set_sftp_ok.
  cbn [self trace ssh_client sftp_client ssh_ok sftp_ok ftp_host ftp_port
       ftp_username ftp_password].
  destruct (connect_result w) as [e|].
  - destruct e; cbn; eexists; (split; [reflexivity|]); cbn;
      (split; [reflexivity|]); (split; [reflexivity|]);
      intros r Hin; repeat (apply in_app_or in Hin; destruct Hin as [Hin|Hin]);
      try (now left); cbn in Hin; intuition discriminate.
  - cbn. destruct (open_sftp_result w) as [e|].
    + destruct e; cbn; eexists; (split; [reflexivity|]); cbn;
        (split; [reflexivity|]); (split; [reflexivity|]);
        intros r Hin; repeat (apply in_app_or in Hin; destruct Hin as [Hin|Hin]);
        try (now left); cbn in Hin;
        repeat (destruct Hin as [Hin|Hin]; try discriminate; try contradiction);
        right; split; congruence.
    + cbn. eexists. split; [reflexivity|]. cbn.
      split; [reflexivity|]. split; [reflexivity|].
      intros r Hin. repeat (apply in_app_or in Hin; destruct Hin as [Hin|Hin]);
        try (now left); cbn in Hin;
        repeat (destruct Hin as [Hin|Hin]; try discriminate; try contradiction);
        right; split; congruence.
Qed.

(** ** Moving *)

(** X3: [move_files_to_processed] never raises and never changes the
    object, for any state: on a client object it issues the one move
    command, and on an object whose [ssh_client] is [None] it issues none
    and prints the [AttributeError] instead. *)
Theorem move_files_to_processed_total
    (w : World) (source_file_name : string) (st : State) :
  exists evs,
    move_files_to_processed w source_file_name st =
      (Val tt, mkState (self st) (trace st ++ evs)) /\
    commands evs =
      match ssh_client (self st) with
      | PyNone => []
      | Obj _ => [mv_command (self st) source_file_name]
      end /\
    (ssh_client (self st) = PyNone ->
     evs = [EvPrint ("moving " ++ source_file_name ++ " to processed directory.");
            EvPrintErr "error moving files to processed directory, error: "
              AttributeError]).
Proof.
  destruct st as [o tr]. cbn [self trace].
  destruct (ssh_client o) as [|live] eqn:Hc.
  - eexists. split.
    + unfold move_files_to_processed, external, method, print, print_error,
        try_except, bind, get_self, get_tick, emit, ret, raise.
      cbn [self trace fst snd]. rewrite Hc. cbn [self trace].
      rewrite <- app_assoc. reflexivity.
    + split; [reflexivity|]. intros _. cbn [app]. now rewrite append_assoc.
  - assert (Hlive : ssh_client o <> PyNone) by congruence.
    pose proof (move_files_to_processed_live w source_file_name o tr Hlive) as H.
    cbv zeta in H.
    eexists. split; [exact H|].
    split; [|discriminate].
    destruct (exec_command_result w _ _); reflexivity.
Qed.

(** ** The partition key, further *)

Lemma contains_app (c : ascii) (a b : string) :
  contains c (a ++ b) = contains c a || contains c b.
Proof.
  induction a as [|x a IH]; simpl; [reflexivity|].
  now rewrite IH, orb_assoc.
Qed.

(** A string goes into [s3_partition_of] only through its last segment. *)
Lemma s3_partition_of_segment (path seg : string) (d : datetime) :
  last_segment "/" path seg ->
  s3_partition_of path d =
    Some (seg ++ "/year = " ++ str (year d) ++ "/month = " ++
          str (month d) ++ "/day = " ++ str (day d) ++ "/hour = " ++
          str (hour d) ++ "/").
Proof.
  intros Hseg.
  destruct (s3_partition_of_format path d) as [seg' [Hseg' Hfmt]].
  now rewrite (last_segment_unique "/" path seg seg' Hseg Hseg').
Qed.

(** X4: only what follows the last "/" of the directory path reaches the
    key: a path with directories in front gives the key of its last
    segment alone.  A path that ends with "/" has an empty last segment, so
    its key has no directory name and starts with "/year = ". *)
Theorem s3_partition_of_last_segment (before seg : string) (d : datetime) :
  contains "/" seg = false ->
  s3_partition_of (before ++ "/" ++ seg) d = s3_partition_of seg d /\
  s3_partition_of seg d =
    Some (seg ++ "/year = " ++ str (year d) ++ "/month = " ++
          str (month d) ++ "/day = " ++ str (day d) ++ "/hour = " ++
          str (hour d) ++ "/") /\
  s3_partition_of (before ++ "/") d =
    Some ("/year = " ++ str (year d) ++ "/month = " ++
          str (month d) ++ "/day = " ++ str (day d) ++ "/hour = " ++
          str (hour d) ++ "/").
Proof.
  intros Hclean.
  assert (H1 : last_segment "/" (before ++ "/" ++ seg) seg).
  { split; [exact Hclean|]. right. now exists before. }
  assert (H2 : last_segment "/" seg seg).
  { split; [exact Hclean|]. now left. }
  assert (H3 : last_segment "/" (before ++ "/") "").
  { split; [reflexivity|]. right. now exists before. }
  rewrite (s3_partition_of_segment _ _ d H1), (s3_partition_of_segment _ _ d H2),
    (s3_partition_of_segment _ _ d H3).
  repeat split.
Qed.

Lemma s3_partition_of_last_segment_witness :
  contains "/" "exports" = false /\
  s3_partition_of ("/data" ++ "/" ++ "exports") (hourly_clock 8) =
    s3_partition_of "exports" (hourly_clock 8).
Proof.
  split.
  - reflexivity.
  - apply (s3_partition_of_last_segment "/data" "exports" (hourly_clock 8)).
    reflexivity.
Defined.

(** [str] can be read back: different numbers print differently. *)
Lemma str_injective (a b : N) : str a = str b -> a = b.
Proof.
  unfold str. intros H.
  assert (Hnil : forall n, N.to_uint n <> Decimal.Nil).
  { intros [|p]; [discriminate | apply DecimalPos.Unsigned.to_uint_nonnil]. }
  apply DecimalN.Unsigned.to_uint_inj.
  pose proof (NilZero.usu (N.to_uint a) (Hnil a)) as Ha.
  pose proof (NilZero.usu (N.to_uint b) (Hnil b)) as Hb.
  rewrite H in Ha. congruence.
Qed.

(** [str] prints digits only. *)
Lemma str_no_separator (n : N) : contains "/" (str n) = false.
Proof.
  unfold str.
  assert (H : forall d, contains "/" (NilEmpty.string_of_uint d) = false).
  { induction d; simpl; auto. }
  destruct (N.to_uint n); simpl; auto; apply H.
Qed.

Lemma append_cancel_l (p a b : string) : p ++ a = p ++ b -> a = b.
Proof.
  induction p as [|c p IH]; simpl; [auto|].
  intros [= H]. now apply IH.
Qed.

(** Two strings cut at their first separator agree piece by piece. *)
Lemma cut_at_separator (c : ascii) (a a' r r' : string) :
  contains c a = false -> contains c a' = false ->
  a ++ String c r = a' ++ String c r' -> a = a' /\ r = r'.
Proof.
  revert a'. induction a as [|x a IH]; intros [|x' a']; simpl; intros Ha Ha' H.
  - now injection H.
  - injection H as <- _. now rewrite Ascii.eqb_refl in Ha'.
  - injection H as -> _. now rewrite Ascii.eqb_refl in Ha.
  - injection H as <- H.
    apply orb_false_iff in Ha as [_ Ha]. apply orb_false_iff in Ha' as [_ Ha'].
    destruct (IH a' Ha Ha' H) as [-> ->]. now split.
Qed.

(** X5: the key tells runs apart by the hour and by nothing finer: for one
    directory, two dates give the same key exactly when they agree on year,
    month, day and hour. *)
Theorem s3_partition_of_same_hour (path : string) (d1 d2 : datetime) :
  s3_partition_of path d1 = s3_partition_of path d2 <->
  (year d1 = year d2 /\ month d1 = month d2 /\ day d1 = day d2 /\
   hour d1 = hour d2).
Proof.
  destruct (s3_partition_of_format path d1) as [seg1 [Hseg1 H1]].
  destruct (s3_partition_of_format path d2) as [seg2 [Hseg2 H2]].
  rewrite (last_segment_unique "/" path seg2 seg1 Hseg2 Hseg1) in H2.
  rewrite H1, H2. split.
  - intros [= H]. apply append_cancel_l in H.
    apply (append_cancel_l "/year = ") in H.
    apply cut_at_separator in H as [Hy H]; try apply str_no_separator.
    apply (append_cancel_l "month = ") in H.
    apply cut_at_separator in H as [Hm H]; try apply str_no_separator.
    apply (append_cancel_l "day = ") in H.
    apply cut_at_separator in H as [Hd H]; try apply str_no_separator.
    apply (append_cancel_l "hour = ") in H.
    apply cut_at_separator in H as [Hh _]; try apply str_no_separator.
    repeat split; now apply str_injective.
  - intros (-> & -> & -> & ->). reflexivity.
Qed.

(** ** Whole runs, in full *)

Lemma close_connections_connected (s : Settings) (tr : list event) :
  close_connections (mkState (connected s) tr) =
    (Val tt, mkState (closed s) (tr ++ closing)).
Proof.
  unfold close_connections, method, print, bind, get_self, emit, ret, raise,
    set_ssh_client, set_sftp_client, connected, closed, closing.
  cbn. now rewrite <- !app_assoc.
Qed.

(** Every call of [upload_fileobj] made by the upload loop is for the
    bucket of the object, with the transfer parameters of config.py, and
    is answered by the world. *)
Lemma upload_loop_calls (w : World) (part : string) (files : list string) :
  forall (acc : list string) (o : FTPIngestion) (tr : list event),
    sftp_client o <> PyNone ->
    exists evs r,
      upload_loop w part files acc (mkState o tr) = (r, mkState o (tr ++ evs)) /\
      Forall (upload_call_of w (s3_bucket_name o)) evs.
Proof.
  induction files as [|f rest IH]; intros acc o tr Hsftp.
  - exists [], (Val acc). cbn. rewrite app_nil_r. split; constructor.
  - rewrite (upload_loop_step w part f rest acc o tr Hsftp). cbv zeta.
    destruct (file_result w (length tr) f) as [e|].
    + exists [EvFile f (Some e)], (Raise e). split; [reflexivity|].
      repeat constructor.
    + destruct (upload_fileobj_result w (S (length tr)) f (s3_bucket_name o)
                  (part ++ f) _) as [error|] eqn:Hup;
        match goal with
        | |- context [upload_loop w part rest ?acc' (mkState o (tr ++ ?new))] =>
            destruct (IH acc' o (tr ++ new)%list Hsftp) as (evs & r & Hrun & Hall);
            exists (new ++ evs)%list, r
        end;
        rewrite Hrun, <- app_assoc; (split; [reflexivity|]);
        apply Forall_app; (split; [|exact Hall]);
        repeat constructor; now exists (S (length tr)).
Qed.

(** The events and the result of the upload loop, once known, have all the
    properties shown for them. *)
Lemma upload_loop_known (w : World) (part : string) (files acc : list string)
    (o : FTPIngestion) (tr evs : list event) (r : result (list string)) :
  sftp_client o <> PyNone ->
  upload_loop w part files acc (mkState o tr) = (r, mkState o (tr ++ evs)) ->
  Forall (upload_call_of w (s3_bucket_name o)) evs /\
  commands evs = [] /\ clock_reads evs = [] /\
  filter is_close_call evs = [] /\
  Forall (fun a => att_key a = part ++ att_file a) (uploads evs) /\
  match r with
  | Val files_to_move =>
      files_to_move = (acc ++ succeeded evs)%list /\
      opened evs = files /\
      map att_file (uploads evs) = files /\
      Forall (fun f => exists t, file_result w t f = None) files
  | Raise e =>
      exists done f rest,
        files = (done ++ f :: rest)%list /\
        opened evs = (done ++ [f])%list /\
        map att_file (uploads evs) = done /\
        Forall (fun f => exists t, file_result w t f = None) done /\
        exists t, file_result w t f = Some e
  end.
Proof.
  intros Hsftp Hrun.
  destruct (upload_loop_calls w part files acc o tr Hsftp) as (e1 & r1 & H1 & Hall).
  destruct (upload_loop_run w part files acc o tr Hsftp) as (e2 & r2 & H2 & Hfacts).
  rewrite Hrun in H1, H2.
  injection H1 as <- H1. apply app_inv_head in H1. subst e1.
  injection H2 as <- H2. apply app_inv_head in H2. subst e2.
  split; assumption.
Qed.

Lemma move_loop_known (w : World) (files : list string) (o : FTPIngestion)
    (tr evs : list event) :
  ssh_client o <> PyNone ->
  move_loop w files (mkState o tr) = (Val tt, mkState o (tr ++ evs)) ->
  uploads evs = [] /\ opened evs = [] /\ clock_reads evs = [] /\
  filter is_close_call evs = [] /\
  commands evs = map (mv_command o) files.
Proof.
  intros Hssh Hrun.
  destruct (move_loop_run w files o tr) as (e1 & H1 & Hu & Ho & Hc & Hx & Hm).
  rewrite Hrun in H1. injection H1 as H1. apply app_inv_head in H1. subst e1.
  repeat split; try assumption. now apply Hm.
Qed.

(** A run whose directory lists as [files], event by event: the entry, the
    listing, one reading of the clock, the upload loop, then the moves (or
    the line that there is nothing to upload, or the report of the error
    that left the loop), then the closing. *)
Lemma main_listed_full (w : World) (s : Settings) (files : list string) :
  lists w s files ->
  let start := (entering s ++ [EvListdir (inr files); EvNow (now w 8)])%list in
  exists part evs r middle,
    s3_partition_of (PARENT_DIR_PATH s) (now w 8) = Some part /\
    upload_loop w part files [] (mkState (connected s) start) =
      (r, mkState (connected s) (start ++ evs)) /\
    main w s =
      (Val tt, mkState (closed s) (start ++ evs ++ middle ++ closing)) /\
    after_loop w (mkState (connected s) (start ++ evs)) r middle.
Proof.
  intros (Hssh & Hsftp & Hchdir & Hlist) start.
  unfold main, initiate_ingestion, try_except, bind.
  rewrite (create_sftp_connection_opened w s Hssh Hsftp).
  fold (connected s).
  assert (Hlive : sftp_client (connected s) <> PyNone) by (cbn; discriminate).
  rewrite (sftp_chdir_run w (connected s) _ Hlive).
  change (ftp_directory_path (connected s)) with (PARENT_DIR_PATH s).
  rewrite Hchdir.
  rewrite (sftp_listdir_run w (connected s) _ Hlive), Hlist.
  match goal with
  | |- context [create_s3_partition w (mkState (connected s) ?tr)] =>
      destruct (create_s3_partition_run w (mkState (connected s) tr))
        as (part & Hpart & Hrun)
  end.
  rewrite Hrun. cbn [self trace] in *. unfold tick in *. cbn [trace length app] in *.
  change (ftp_directory_path (connected s)) with (PARENT_DIR_PATH s) in Hpart.
  match goal with
  | |- context [upload_loop w part files [] (mkState (connected s) ?tr)] =>
      change tr with start
  end.
  destruct (upload_loop_run w part files [] (connected s) start Hlive)
    as (evs & r & Hloop & _).
  rewrite Hloop.
  destruct r as [[|f0 fm] | e].
  - unfold print, emit. cbn [self trace].
    rewrite close_connections_connected.
    exists part, evs, (Val []), [EvPrint "nothing to upload"].
    rewrite <- !app_assoc. repeat split; try assumption.
  - destruct (move_loop_run w (f0 :: fm) (connected s) (start ++ evs)%list)
      as (evm & Hmove & _).
    rewrite Hmove, close_connections_connected.
    exists part, evs, (Val (f0 :: fm)), evm.
    rewrite <- !app_assoc. repeat split; try assumption.
  - unfold print_error, emit. cbn [self trace].
    rewrite close_connections_connected.
    exists part, evs, (Raise e), [EvPrintErr "file ingestion failed, error: " e].
    rewrite <- !app_assoc. repeat split; try assumption.
Qed.

(** What follows the upload loop uploads nothing, opens nothing, does not
    read the clock or close, and issues the move command of every file of
    the list the loop returned. *)
Lemma after_loop_facts (w : World) (o : FTPIngestion) (tr middle : list event)
    (r : result (list string)) :
  ssh_client o <> PyNone ->
  after_loop w (mkState o tr) r middle ->
  uploads middle = [] /\ opened middle = [] /\ clock_reads middle = [] /\
  filter is_close_call middle = [] /\
  commands middle =
    match r with
    | Val files_to_move => map (mv_command o) files_to_move
    | Raise _ => []
    end.
Proof.
  intros Hssh H. destruct r as [[|f fm] | e]; cbn in H.
  - subst middle. repeat split.
  - now apply (move_loop_known w (f :: fm) o tr middle Hssh).
  - subst middle. repeat split.
Qed.

Lemma main_no_directory (w : World) (s : Settings) (e : exn) :
  connect_result w = None -> open_sftp_result w = None ->
  chdir_result w (PARENT_DIR_PATH s) = Some e ->
  main w s =
    (Val tt,
     mkState (closed s)
       (connecting s ++
        [EvChdir (PARENT_DIR_PATH s) (Some e);
         EvPrintErr "file ingestion failed, error: " e] ++ closing)).
Proof.
  intros Hssh Hsftp Hchdir.
  unfold main, initiate_ingestion, try_except, bind.
  rewrite (create_sftp_connection_opened w s Hssh Hsftp).
  fold (connected s).
  assert (Hlive : sftp_client (connected s) <> PyNone) by (cbn; discriminate).
  rewrite (sftp_chdir_run w (connected s) _ Hlive).
  change (ftp_directory_path (connected s)) with (PARENT_DIR_PATH s).
  rewrite Hchdir. unfold print_error, emit. cbn [self trace].
  rewrite close_connections_connected. reflexivity.
Qed.

Lemma main_no_listing (w : World) (s : Settings) (e : exn) :
  connect_result w = None -> open_sftp_result w = None ->
  chdir_result w (PARENT_DIR_PATH s) = None ->
  listdir_result w = inl e ->
  main w s =
    (Val tt,
     mkState (closed s)
       (entering s ++
        [EvListdir (inl e);
         EvPrintErr "file ingestion failed, error: " e] ++ closing)).
Proof.
  intros Hssh Hsftp Hchdir Hlist.
  unfold main, initiate_ingestion, try_except, bind.
  rewrite (create_sftp_connection_opened w s Hssh Hsftp).
  fold (connected s).
  assert (Hlive : sftp_client (connected s) <> PyNone) by (cbn; discriminate).
  rewrite (sftp_chdir_run w (connected s) _ Hlive).
  change (ftp_directory_path (connected s)) with (PARENT_DIR_PATH s).
  rewrite Hchdir.
  rewrite (sftp_listdir_run w (connected s) _ Hlive), Hlist.
  unfold print_error, emit. cbn [self trace].
  rewrite close_connections_connected. reflexivity.
Qed.

Lemma close_calls_none (tr : list event) :
  filter is_close_call tr = [] -> close_calls tr = 0.
Proof. unfold close_calls. now intros ->. Qed.

(** X6: every run ends in [close_connections], entered once and after
    everything else.  If the session had opened, both clients are closed
    there, the object is left with two closed clients and the run returns
    normally, whatever failed in between; if it had not, nothing is closed,
    [sftp_client] is still [None] and the run ends with [AttributeError]. *)
Theorem run_ends_in_close_connections (w : World) (s : Settings) :
  exists before after,
    trace (snd (main w s)) =
      (before ++ EvPrint "closing connections" :: after)%list /\
    close_calls before = 0 /\
    ((fst (create_sftp_connection w (initial s)) = Val true /\
      after = [EvSftpClose; EvSshClose] /\
      self (snd (main w s)) = closed s /\
      fst (main w s) = Val tt) \/
     (fst (create_sftp_connection w (initial s)) = Val false /\
      after = [] /\
      sftp_client (self (snd (main w s))) = PyNone /\
      fst (main w s) = Raise AttributeError)).
Proof.
  destruct (run_kinds w s) as [Hfail | [(Hssh & Hsftp & Hfail) | [files Hl]]].
  - destruct (create_sftp_connection_failed w s Hfail)
      as (o & evs & Hconn & Hnone & _ & Hcls & _).
    destruct (main_not_opened w s Hfail) as (o' & evs' & Hconn' & Hmain).
    rewrite Hconn in Hconn'. injection Hconn' as <- <-.
    exists (evs ++ [EvPrint "Could not establish SFTP connection"])%list, [].
    rewrite Hmain, Hconn. cbn [fst snd self trace].
    rewrite close_calls_app, Hcls, <- app_assoc.
    split; [reflexivity|]. split; [reflexivity|]. right. now repeat split.
  - assert (Hopen : fst (create_sftp_connection w (initial s)) = Val true)
      by now rewrite create_sftp_connection_opened.
    destruct (chdir_result w (PARENT_DIR_PATH s)) as [e|] eqn:Hchdir.
    + rewrite (main_no_directory w s e Hssh Hsftp Hchdir).
      exists (connecting s ++
              [EvChdir (PARENT_DIR_PATH s) (Some e);
               EvPrintErr "file ingestion failed, error: " e])%list,
        [EvSftpClose; EvSshClose].
      cbn [fst snd self trace]. rewrite <- app_assoc.
      split; [reflexivity|]. split; [reflexivity|]. left. now repeat split.
    + destruct Hfail as [Hfail | [e Hlist]]; [congruence|].
      rewrite (main_no_listing w s e Hssh Hsftp Hchdir Hlist).
      exists (entering s ++
              [EvListdir (inl e);
               EvPrintErr "file ingestion failed, error: " e])%list,
        [EvSftpClose; EvSshClose].
      cbn [fst snd self trace]. rewrite <- app_assoc.
      split; [reflexivity|]. split; [reflexivity|]. left. now repeat split.
  - assert (Hopen : fst (create_sftp_connection w (initial s)) = Val true).
    { destruct Hl as (Hssh & Hsftp & _).
      now rewrite create_sftp_connection_opened. }
    destruct (main_listed_full w s files Hl)
      as (part & evs & r & middle & _ & Hloop & Hmain & Hafter).
    cbv zeta in Hloop, Hmain.
    assert (Hlive : sftp_client (connected s) <> PyNone) by (cbn; discriminate).
    assert (Hlive' : ssh_client (connected s) <> PyNone) by (cbn; discriminate).
    destruct (upload_loop_known w part files [] _ _ _ _ Hlive Hloop)
      as (_ & _ & _ & Hecls & _).
    destruct (after_loop_facts w _ _ _ _ Hlive' Hafter) as (_ & _ & _ & Hmcls & _).
    rewrite Hmain. cbn [fst snd self trace].
    exists ((entering s ++ [EvListdir (inr files); EvNow (now w 8)]) ++
            evs ++ middle)%list, [EvSftpClose; EvSshClose].
    rewrite !close_calls_app, (close_calls_none evs Hecls),
      (close_calls_none middle Hmcls), <- !app_assoc.
    split; [reflexivity|]. split; [reflexivity|]. left. now repeat split.
Qed.

(** X7: when the pending directory cannot be entered or listed, the run
    stops there: after the connection it holds the failed call, the report
    of the error and the closing, and nothing else; a failed [chdir] is not
    followed by a listing; no clock is read, no file opened, uploaded or
    moved; the run returns normally with both clients closed. *)
Theorem listing_failure_ends_run (w : World) (s : Settings) :
  connect_result w = None -> open_sftp_result w = None ->
  chdir_result w (PARENT_DIR_PATH s) <> None \/
  (exists e, listdir_result w = inl e) ->
  exists e before,
    main w s =
      (Val tt,
       mkState (closed s)
         (before ++ [EvPrintErr "file ingestion failed, error: " e] ++ closing)) /\
    (before = (connecting s ++ [EvChdir (PARENT_DIR_PATH s) (Some e)])%list \/
     before = (entering s ++ [EvListdir (inl e)])%list).
Proof.
  intros Hssh Hsftp Hfail.
  destruct (chdir_result w (PARENT_DIR_PATH s)) as [e|] eqn:Hchdir.
  - exists e, (connecting s ++ [EvChdir (PARENT_DIR_PATH s) (Some e)])%list.
    rewrite (main_no_directory w s e Hssh Hsftp Hchdir), <- !app_assoc.
    split; [reflexivity | now left].
  - destruct Hfail as [Hfail | [e Hlist]]; [congruence|].
    exists e, (entering s ++ [EvListdir (inl e)])%list.
    rewrite (main_no_listing w s e Hssh Hsftp Hchdir Hlist), <- !app_assoc.
    split; [reflexivity | now right].
Qed.

Lemma listing_failure_ends_run_witness :
  connect_result world_no_directory = None /\
  open_sftp_result world_no_directory = None /\
  (chdir_result world_no_directory (PARENT_DIR_PATH sample_settings) <> None \/
   (exists e, listdir_result world_no_directory = inl e)) /\
  exists e before,
    main world_no_directory sample_settings =
      (Val tt,
       mkState (closed sample_settings)
         (before ++ [EvPrintErr "file ingestion failed, error: " e] ++ closing)) /\
    (before = (connecting sample_settings ++
               [EvChdir (PARENT_DIR_PATH sample_settings) (Some e)])%list \/
     before = (entering sample_settings ++ [EvListdir (inl e)])%list).
Proof.
  split; [reflexivity|]. split; [reflexivity|].
  split; [left; vm_compute; discriminate|].
  apply (listing_failure_ends_run world_no_directory sample_settings).
  - reflexivity.
  - reflexivity.
  - left. vm_compute. discriminate.
Defined.

(** X8: on an empty pending directory the run is exactly: connect, enter
    and list the directory, read the clock (the partition is computed
    although nothing will use it), print that there is nothing to upload,
    close.  Nothing is opened, uploaded or moved. *)
Theorem empty_directory_run (w : World) (s : Settings) :
  lists w s [] ->
  main w s =
    (Val tt,
     mkState (closed s)
       (entering s ++
        [EvListdir (inr []); EvNow (now w 8); EvPrint "nothing to upload"] ++
        closing)).
Proof.
  intros Hl.
  destruct (main_listed_full w s [] Hl)
    as (part & evs & r & middle & _ & Hloop & Hmain & Hafter).
  cbv zeta in Hloop, Hmain. cbn [upload_loop] in Hloop. unfold ret in Hloop.
  injection Hloop as <- <-.
  cbn in Hafter. subst middle.
  rewrite Hmain, <- !app_assoc. reflexivity.
Qed.

Lemma empty_directory_run_witness :
  lists world_empty sample_settings [] /\
  main world_empty sample_settings =
    (Val tt,
     mkState (closed sample_settings)
       (entering sample_settings ++
        [EvListdir (inr []); EvNow (now world_empty 8);
         EvPrint "nothing to upload"] ++ closing)).
Proof.
  split.
  - vm_compute. repeat split.
  - apply (empty_directory_run world_empty sample_settings).
    vm_compute. repeat split.
Defined.

Lemma rejected_calls_fail (w : World) (bucket : string) (evs : list event) :
  Forall (upload_call_of w bucket) evs ->
  (forall t f b k c, upload_fileobj_result w t f b k c <> None) ->
  succeeded evs = [].
Proof.
  intros Hall Hrej. induction Hall as [|e evs He _ IH]; [reflexivity|].
  change (e :: evs) with ([e] ++ evs)%list. rewrite succeeded_app, IH, app_nil_r.
  destruct e; try reflexivity. destruct r as [error|]; [reflexivity|].
  destruct He as (_ & _ & t & Ht). now destruct (Hrej _ _ _ _ _ Ht).
Qed.

Lemma quiet_events_are_calls (w : World) (bucket : string) (tr : list event) :
  uploads tr = [] -> Forall (upload_call_of w bucket) tr.
Proof.
  induction tr as [|e tr IH]; intros H; [constructor|].
  change (e :: tr) with ([e] ++ tr)%list in H. rewrite uploads_app in H.
  apply app_eq_nil in H as [He Htr].
  constructor; [|now apply IH].
  destruct e; try exact I. discriminate.
Qed.

(** X9: when the bucket rejects every upload, the run still tries every
    listed file, moves nothing, and reports the outcome with the line it
    prints for an empty directory, "nothing to upload", before closing. *)
Theorem rejected_uploads_run (w : World) (s : Settings) (files : list string) :
  lists w s files ->
  (forall t f, file_result w t f = None) ->
  (forall t f b k c, upload_fileobj_result w t f b k c <> None) ->
  map att_file (uploads (trace (snd (main w s)))) = files /\
  succeeded (trace (snd (main w s))) = [] /\
  commands (trace (snd (main w s))) = [] /\
  exists before,
    trace (snd (main w s)) =
      (before ++ EvPrint "nothing to upload" :: closing)%list.
Proof.
  intros Hl Hopen Hrej.
  destruct (main_listed_full w s files Hl)
    as (part & evs & r & middle & _ & Hloop & Hmain & Hafter).
  cbv zeta in Hloop, Hmain.
  assert (Hlive : sftp_client (connected s) <> PyNone) by (cbn; discriminate).
  destruct (upload_loop_known w part files [] _ _ _ _ Hlive Hloop)
    as (Hcalls & Hcmd & _ & _ & _ & Hres).
  pose proof (rejected_calls_fail w _ evs Hcalls Hrej) as Hnone.
  destruct r as [fm | e].
  - destruct Hres as (Hfm & _ & Hup & _). rewrite Hnone in Hfm.
    cbn [app] in Hfm. subst fm. cbn in Hafter. subst middle.
    rewrite Hmain. cbn [snd trace].
    rewrite !uploads_app, !succeeded_app, !commands_app, Hnone, Hcmd.
    unfold entering, connecting, closing.
    cbn [app uploads succeeded commands flat_map].
    rewrite app_nil_r.
    repeat split; [exact Hup|].
    exists ((entering s ++ [EvListdir (inr files); EvNow (now w 8)]) ++ evs)%list.
    now rewrite <- !app_assoc.
  - destruct Hres as (done & f & rest & _ & _ & _ & _ & t & Hraise).
    rewrite Hopen in Hraise. discriminate.
Qed.

Lemma rejected_uploads_run_witness :
  lists world_all_rejected sample_settings ["a.csv"; "b.bin"] /\
  (forall t f, file_result world_all_rejected t f = None) /\
  (forall t f b k c, upload_fileobj_result world_all_rejected t f b k c <> None) /\
  commands (trace (snd (main world_all_rejected sample_settings))) = [].
Proof.
  split; [vm_compute; repeat split|].
  split; [reflexivity|].
  split; [intros; vm_compute; discriminate|].
  apply (rejected_uploads_run world_all_rejected sample_settings
           ["a.csv"; "b.bin"]).
  - vm_compute. repeat split.
  - reflexivity.
  - intros. vm_compute. discriminate.
Defined.

(** X10: a run uploads along the listing: the files sent to the bucket are
    the first entries of the listing, each once and in that order, never a
    name that was not listed; and a read stream is opened for exactly those
    files, or for those and the one entry at which the run stopped. *)
Theorem uploads_follow_listing (w : World) (s : Settings) (files : list string) :
  lists w s files ->
  exists rest,
    files = (map att_file (uploads (trace (snd (main w s)))) ++ rest)%list /\
    (opened (trace (snd (main w s))) =
       map att_file (uploads (trace (snd (main w s)))) \/
     exists f rest',
       rest = f :: rest' /\
       opened (trace (snd (main w s))) =
         (map att_file (uploads (trace (snd (main w s)))) ++ [f])%list).
Proof.
  intros Hl.
  destruct (main_listed w s files Hl)
    as (pre & part & evs & r & tail & o' & Hmain & (Hpu & Hpo & _) & _ & _ &
        (Htu & Hto & _) & Hres).
  rewrite Hmain. cbn [snd trace].
  change (EvNow (now w 8) :: evs ++ tail)%list
    with ([EvNow (now w 8)] ++ evs ++ tail)%list.
  rewrite !uploads_app, !opened_app, Hpu, Hpo, Htu, Hto.
  cbn [uploads opened flat_map app]. rewrite !app_nil_r.
  destruct r as [fm | e].
  - destruct Hres as (_ & Hop & Hup & _). exists [].
    rewrite Hop, Hup, app_nil_r. split; [reflexivity | now left].
  - destruct Hres as ((done & f & rest & Hfiles & Hop & Hup & _) & _).
    exists (f :: rest). rewrite Hop, Hup. split; [exact Hfiles|].
    right. now exists f, rest.
Qed.

Lemma uploads_follow_listing_witness :
  lists world_unreadable_entry sample_settings ["a.csv"; "archive"; "b.bin"] /\
  exists rest,
    ["a.csv"; "archive"; "b.bin"] =
      (map att_file
         (uploads (trace (snd (main world_unreadable_entry sample_settings)))) ++
       rest)%list /\
    (opened (trace (snd (main world_unreadable_entry sample_settings))) =
       map att_file
         (uploads (trace (snd (main world_unreadable_entry sample_settings)))) \/
     exists f rest',
       rest = f :: rest' /\
       opened (trace (snd (main world_unreadable_entry sample_settings))) =
         (map att_file
            (uploads (trace (snd (main world_unreadable_entry sample_settings)))) ++
          [f])%list).
Proof.
  split; [vm_compute; repeat split|].
  apply (uploads_follow_listing world_unreadable_entry sample_settings
           ["a.csv"; "archive"; "b.bin"]).
  vm_compute. repeat split.
Defined.

(** X11: every call of [upload_fileobj] in every run names the configured
    bucket and carries the transfer parameters of config.py: a threshold
    of 100 MB, parts of 20 MB, at most 10 at a time, threads on.  The job
    never chooses between single and multi-part itself. *)
Theorem uploads_use_configuration (w : World) (s : Settings) :
  configured = mkTransferConfig 104857600 20971520 10 true /\
  Forall (upload_call_of w (S3_BUCKET s)) (trace (snd (main w s))).
Proof.
  split; [vm_compute; reflexivity|].
  destruct (run_kinds w s) as [Hfail | [(Hssh & Hsftp & Hfail) | [files Hl]]].
  - apply quiet_events_are_calls.
    assert (Hfalse : fst (create_sftp_connection w (initial s)) = Val false).
    { rewrite create_sftp_connection_result.
      destruct Hfail as [H | H].
      - destruct (connect_result w); [reflexivity | congruence].
      - destruct (open_sftp_result w); [|congruence].
        now rewrite andb_false_r. }
    destruct (create_sftp_connection_failed w s Hfail)
      as (o & evs & Hconn & _ & _ & _ & _ & Hup & _).
    destruct (main_not_opened w s Hfail) as (o' & evs' & Hconn' & Hmain).
    rewrite Hconn in Hconn'. injection Hconn' as <- <-.
    rewrite Hmain. cbn [snd trace]. now rewrite uploads_app, Hup.
  - apply quiet_events_are_calls.
    destruct (main_listing_failed w s Hssh Hsftp Hfail)
      as (o' & evs & Hmain & Hup & _).
    now rewrite Hmain.
  - destruct (main_listed_full w s files Hl)
      as (part & evs & r & middle & _ & Hloop & Hmain & Hafter).
    cbv zeta in Hloop, Hmain.
    assert (Hlive : sftp_client (connected s) <> PyNone) by (cbn; discriminate).
    assert (Hlive' : ssh_client (connected s) <> PyNone) by (cbn; discriminate).
    destruct (upload_loop_known w part files [] _ _ _ _ Hlive Hloop)
      as (Hcalls & _).
    destruct (after_loop_facts w _ _ _ _ Hlive' Hafter) as (Hmu & _).
    rewrite Hmain. cbn [snd trace].
    apply Forall_app. split; [now apply quiet_events_are_calls|].
    apply Forall_app. split; [exact Hcalls|].
    apply Forall_app. split; now apply quiet_events_are_calls.
Qed.


Lemma accepted_calls_succeed (w : World) (bucket : string) (evs : list event) :
  Forall (upload_call_of w bucket) evs ->
  (forall t f b k c, upload_fileobj_result w t f b k c = None) ->
  succeeded evs = map att_file (uploads evs).
Proof.
  intros Hall Hacc. induction Hall as [|e evs He _ IH]; [reflexivity|].
  change (e :: evs) with ([e] ++ evs)%list.
  rewrite succeeded_app, uploads_app, map_app, IH. f_equal.
  destruct e; try reflexivity. destruct r as [error|]; [|reflexivity].
  destruct He as (_ & _ & t & Ht). rewrite Hacc in Ht. discriminate.
Qed.

(** X13: when every read stream opens and the bucket accepts every upload,
    each listed file is uploaded once and its move command issued once,
    both in the order of the listing, and the run returns normally; this
    does not depend on what the remote shell answers to the moves. *)
Theorem all_accepted_run (w : World) (s : Settings) (files : list string) :
  lists w s files ->
  (forall t f, file_result w t f = None) ->
  (forall t f b k c, upload_fileobj_result w t f b k c = None) ->
  map att_file (uploads (trace (snd (main w s)))) = files /\
  succeeded (trace (snd (main w s))) = files /\
  commands (trace (snd (main w s))) = map (mv_command (init s)) files /\
  fst (main w s) = Val tt.
Proof.
  intros Hl Hopen Hacc.
  destruct (main_listed_full w s files Hl)
    as (part & evs & r & middle & _ & Hloop & Hmain & Hafter).
  cbv zeta in Hloop, Hmain.
  assert (Hlive : sftp_client (connected s) <> PyNone) by (cbn; discriminate).
  assert (Hlive' : ssh_client (connected s) <> PyNone) by (cbn; discriminate).
  destruct (upload_loop_known w part files [] _ _ _ _ Hlive Hloop)
    as (Hcalls & Hcmd & _ & _ & _ & Hres).
  destruct (after_loop_facts w _ _ _ _ Hlive' Hafter)
    as (Hmu & _ & _ & _ & Hmc).
  pose proof (accepted_calls_succeed w _ evs Hcalls Hacc) as Hsucc.
  destruct r as [fm | e].
  - destruct Hres as (Hfm & _ & Hup & _). cbn [app] in Hfm.
    rewrite Hsucc, Hup in Hfm. subst fm.
    rewrite Hmain. cbn [fst snd trace].
    rewrite !uploads_app, !succeeded_app, !commands_app, Hcmd, Hmc, Hmu,
      (no_uploads_no_success middle Hmu), Hsucc, Hup.
    unfold entering, connecting, closing.
    cbn [app uploads succeeded commands flat_map].
    rewrite !app_nil_r. repeat split. exact Hup.
  - destruct Hres as (done & f & rest & _ & _ & _ & _ & t & Hraise).
    rewrite Hopen in Hraise. discriminate.
Qed.

Lemma all_accepted_run_witness :
  lists world_all_ok sample_settings ["a.csv"; "b.bin"] /\
  (forall t f, file_result world_all_ok t f = None) /\
  (forall t f b k c, upload_fileobj_result world_all_ok t f b k c = None) /\
  commands (trace (snd (main world_all_ok sample_settings))) =
    map (mv_command (init sample_settings)) ["a.csv"; "b.bin"].
Proof.
  split; [vm_compute; repeat split|].
  split; [reflexivity|]. split; [reflexivity|].
  apply (all_accepted_run world_all_ok sample_settings ["a.csv"; "b.bin"]).
  - vm_compute. repeat split.
  - reflexivity.
  - reflexivity.
Defined.

(** ** The move step, event by event *)

(** On a client object the move loop does, for each file of its list in
    order, what [move_report] describes, with the answers of the world. *)
Lemma move_loop_reports (w : World) (files : list string) :
  forall (o : FTPIngestion) (tr : list event),
    ssh_client o <> PyNone ->
    exists outcomes,
      map fst outcomes = files /\
      Forall (fun fr => exists t,
                  exec_command_result w t (mv_command o (fst fr)) = snd fr)
             outcomes /\
      move_loop w files (mkState o tr) =
        (Val tt, mkState o (tr ++ flat_map (move_report o) outcomes)).
Proof.
  induction files as [|f rest IH]; intros o tr Hssh.
  - exists []. cbn. rewrite app_nil_r. repeat split. constructor.
  - pose proof (move_files_to_processed_live w f o tr Hssh) as Hone.
    cbv zeta in Hone.
    set (r := exec_command_result w (S (length tr)) (mv_command o f)) in *.
    destruct (IH o (tr ++ move_report o (f, r))%list Hssh)
      as (outcomes & Hfiles & Hall & Hrun).
    exists ((f, r) :: outcomes).
    split; [cbn; now rewrite Hfiles|].
    split; [constructor; [now exists (S (length tr)) | exact Hall]|].
    cbn [move_loop]. unfold bind at 1. rewrite Hone.
    change (EvPrint ("moving " ++ f ++ " to processed directory.") ::
            EvExecCommand (mv_command o f) r ::
            match r with
            | None => []
            | Some error =>
                [EvPrintErr "error moving files to processed directory, error: "
                   error]
            end) with (move_report o (f, r)).
    rewrite Hrun. cbn [flat_map]. now rewrite <- app_assoc.
Qed.

(** C7: in a run that gets through the upload loop (the read stream of
    every listed file opens), the moves come in one block after every
    upload has been tried: the first part of the run tries the upload of
    every listed file and moves nothing; the second part uploads nothing
    and works through the files whose upload succeeded, in order.  For each
    of them it announces the move and issues the move command, and when
    [exec_command] raises it prints the error and goes on with the next
    file; nothing else happens before the closing (or, when no upload
    succeeded, before the line that there is nothing to upload), and the
    run returns normally. *)
Theorem moves_all_attempted (w : World) (s : Settings) (files : list string) :
  lists w s files ->
  (forall t f, In f files -> file_result w t f = None) ->
  exists before after,
    trace (snd (main w s)) = (before ++ after)%list /\
    map att_file (uploads before) = files /\
    commands before = [] /\
    uploads after = [] /\ opened after = [] /\
    commands after = map (mv_command (init s)) (succeeded before) /\
    fst (main w s) = Val tt /\
    exists outcomes rest,
      map fst outcomes = succeeded before /\
      Forall (fun fr => exists t,
                  exec_command_result w t (mv_command (init s) (fst fr)) =
                  snd fr)
             outcomes /\
      after = (flat_map (move_report (init s)) outcomes ++ rest)%list /\
      (rest = closing \/
       (outcomes = [] /\ rest = EvPrint "nothing to upload" :: closing)).
Proof.
  intros Hl Hopen.
  destruct (main_listed_full w s files Hl)
    as (part & evs & r & middle & _ & Hloop & Hmain & Hafter).
  cbv zeta in Hloop, Hmain.
  assert (Hlive : sftp_client (connected s) <> PyNone) by (cbn; discriminate).
  assert (Hlive' : ssh_client (connected s) <> PyNone) by (cbn; discriminate).
  destruct (upload_loop_known w part files [] _ _ _ _ Hlive Hloop)
    as (_ & Hcmd & _ & _ & _ & Hres).
  destruct (after_loop_facts w _ _ _ _ Hlive' Hafter)
    as (Hmu & Hmo & _ & _ & Hmc).
  destruct r as [fm | e].
  - destruct Hres as (Hfm & _ & Hup & _). cbn [app] in Hfm.
    set (start := (entering s ++ [EvListdir (inr files); EvNow (now w 8)])%list)
      in *.
    assert (Hsu : uploads start = []) by reflexivity.
    assert (Hsc : commands start = []) by reflexivity.
    assert (Hsucc : succeeded (start ++ evs) = fm).
    { rewrite succeeded_app, Hfm. reflexivity. }
    exists (start ++ evs)%list, (middle ++ closing)%list.
    split; [rewrite Hmain; cbn [snd trace]; now rewrite <- !app_assoc|].
    split; [rewrite uploads_app, Hsu; exact Hup|].
    split; [rewrite commands_app, Hsc, Hcmd; reflexivity|].
    split; [rewrite uploads_app, Hmu; reflexivity|].
    split; [rewrite opened_app, Hmo; reflexivity|].
    split; [rewrite commands_app, Hmc, Hsucc; cbn; now rewrite app_nil_r|].
    split; [now rewrite Hmain|].
    rewrite Hsucc.
    destruct fm as [|f0 fm'].
    + cbn in Hafter. subst middle.
      exists [], (EvPrint "nothing to upload" :: closing).
      repeat split; [constructor | now right].
    + cbn [after_loop self trace] in Hafter.
      destruct (move_loop_reports w (f0 :: fm') (connected s) (start ++ evs)%list
                  Hlive') as (outcomes & Hfiles & Hall & Hrun).
      rewrite Hafter in Hrun. injection Hrun as Hrun.
      apply app_inv_head in Hrun. subst middle.
      exists outcomes, closing.
      split; [exact Hfiles|]. split; [exact Hall|].
      split; [reflexivity | now left].
  - destruct Hres as (done & f & rest & Hfiles & _ & _ & _ & t & Hraise).
    rewrite Hopen in Hraise; [discriminate|].
    rewrite Hfiles. apply in_or_app. right. now left.
Qed.

Lemma moves_all_attempted_witness :
  lists world_mixed sample_settings ["a.csv"; "b.bin"; "c.txt"] /\
  (forall t f, In f ["a.csv"; "b.bin"; "c.txt"] ->
               file_result world_mixed t f = None) /\
  exists before after,
    trace (snd (main world_mixed sample_settings)) = (before ++ after)%list /\
    map att_file (uploads before) = ["a.csv"; "b.bin"; "c.txt"] /\
    commands before = [] /\
    uploads after = [] /\ opened after = [] /\
    commands after = map (mv_command (init sample_settings)) (succeeded before) /\
    fst (main world_mixed sample_settings) = Val tt /\
    exists outcomes rest,
      map fst outcomes = succeeded before /\
      Forall (fun fr => exists t,
                  exec_command_result world_mixed t
                    (mv_command (init sample_settings) (fst fr)) = snd fr)
             outcomes /\
      after = (flat_map (move_report (init sample_settings)) outcomes ++ rest)%list /\
      (rest = closing \/
       (outcomes = [] /\ rest = EvPrint "nothing to upload" :: closing)).
Proof.
  split; [vm_compute; repeat split|]. split; [reflexivity|].
  apply (moves_all_attempted world_mixed sample_settings
           ["a.csv"; "b.bin"; "c.txt"]).
  - vm_compute. repeat split.
  - reflexivity.
Defined.

(** In [world_mixed] the move of [a.csv] fails: the error is printed and
    the move of [c.txt] is still tried; [b.bin], whose upload failed, is
    not moved. *)
Example failed_move_example :
  commands (trace (snd (main world_mixed sample_settings))) =
    ["mv /data/exports/a.csv /data/processed/a.csv";
     "mv /data/exports/c.txt /data/processed/c.txt"] /\
  exists before after,
    trace (snd (main world_mixed sample_settings)) =
      (before ++
       move_report (init sample_settings) ("a.csv", Some SSHException) ++
       move_report (init sample_settings) ("c.txt", None) ++ after)%list /\
    after = closing.
Proof.
  split; [vm_compute; reflexivity|].
  exists (firstn 18 (trace (snd (main world_mixed sample_settings)))), closing.
  split; vm_compute; reflexivity.
Qed.
